(** * beartype: PEP-compliant type hint getters and PEP 484 reducers

    A shallow embedding of

    - [beartype/_util/hint/pep/utilhintpepget.py]
      ([get_hint_pep_args], [get_hint_pep_typevars], [get_hint_pep_sign],
      [get_hint_pep_generic_type_or_none], [get_hint_pep_stdlib_type],
      [get_hint_pep_stdlib_type_or_none],
      [get_hint_pep_generic_bases_unerased],
      [_get_hint_pep_origin_object_or_none]) and
    - [beartype/_util/hint/pep/proposal/pep484/utilpep484.py]
      ([is_hint_pep484_typevar_ignorable], [reduce_hint_pep484_deprecated],
      [reduce_hint_pep484_none]).

    Python objects are a small inductive type, exceptions are values of an
    error monad, emitted warnings are threaded as an explicit log, and
    everything the two modules import from elsewhere is a field of the
    [Host] record. *)

From Stdlib Require Import Ascii String List Bool Lia.
From stdpp Require Import base decidable option list strings gmap.

Local Open Scope list_scope.
Set Warnings "-register-all".

(* ------------------------------------------------------------------ *)
(** ** Python objects *)

(** What [isinstance] can tell about an object, as far as the two modules
    ask: [isinstance(o, type)], a module object, or anything else. *)
Inductive pykind : Type :=
  | KType
  | KModule
  | KOther.

(** A Python object.

    - [PyNone] is the [None] singleton;
    - [PyStr] and [PyTuple] are the builtin immutable values;
    - [PyTypeAlias name type_var impl_type] is an instance of the Python
      3.6-only class [typing._TypeAlias], whose [__slots__] are exactly
      these fields (plus a checker that is never read here), so that it has
      no other attribute;
    - [PyObj kind repr attrs] is any other object: its kind, what [repr()]
      returns for it, and its attribute namespace in lookup order. *)
Inductive pyobj : Type :=
  | PyNone : pyobj
  | PyStr : string -> pyobj
  | PyTuple : list pyobj -> pyobj
  | PyTypeAlias : string -> pyobj -> pyobj -> pyobj
  | PyObj : pykind -> string -> list (string * pyobj) -> pyobj.

#[global] Instance pykind_eq_dec : EqDecision pykind.
Proof. solve_decision. Defined.

Definition pair_eq_dec {A B : Type}
    (da : forall x y : A, {x = y} + {x <> y})
    (db : forall x y : B, {x = y} + {x <> y})
    (p q : A * B) : {p = q} + {p <> q}.
Proof. decide equality. Defined.

Fixpoint pyobj_eq_dec (a b : pyobj) {struct a} : {a = b} + {a <> b}.
Proof.
  refine (
    match a, b with
    | PyNone, PyNone => left eq_refl
    | PyStr s, PyStr t =>
        match string_dec s t with left e => left _ | right n => right _ end
    | PyTuple xs, PyTuple ys =>
        match List.list_eq_dec pyobj_eq_dec xs ys with
        | left e => left _ | right n => right _ end
    | PyTypeAlias n v i, PyTypeAlias n' v' i' =>
        match string_dec n n', pyobj_eq_dec v v', pyobj_eq_dec i i' with
        | left e1, left e2, left e3 => left _
        | _, _, _ => right _
        end
    | PyObj k r l, PyObj k' r' l' =>
        match decide (k = k'), string_dec r r',
              List.list_eq_dec (pair_eq_dec string_dec pyobj_eq_dec) l l'
        with
        | left e1, left e2, left e3 => left _
        | _, _, _ => right _
        end
    | _, _ => right _
    end); congruence.
Defined.

#[global] Instance pyobj_eq_decision : EqDecision pyobj := pyobj_eq_dec.

(** [isinstance(o, type)]. *)
Definition isinstance_type (o : pyobj) : bool :=
  match o with
  | PyObj KType _ _ => true
  | _ => false
  end.

(** [isinstance(o, typing._TypeAlias)]. *)
Definition isinstance_TypeAlias (o : pyobj) : bool :=
  match o with
  | PyTypeAlias _ _ _ => true
  | _ => false
  end.

(** [o is None]. *)
Definition is_None (o : pyobj) : bool :=
  match o with
  | PyNone => true
  | _ => false
  end.

(** Truth value of an object, as [not], [or] and [if] test it: [None], the
    empty string and the empty tuple are false, every other object here is
    true. *)
Definition truthy (o : pyobj) : bool :=
  match o with
  | PyNone => false
  | PyStr s => negb (String.eqb s EmptyString)
  | PyTuple xs => match xs with [] => false | _ :: _ => true end
  | PyTypeAlias _ _ _ => true
  | PyObj _ _ _ => true
  end.

(** [a or b] on already evaluated operands. *)
Definition py_or (a b : pyobj) : pyobj := if truthy a then a else b.

(** First binding of [name] in an attribute namespace. *)
Fixpoint assoc_lookup (name : string) (ns : list (string * pyobj))
  : option pyobj :=
  match ns with
  | [] => None
  | (k, v) :: rest =>
      if String.eqb k name then Some v else assoc_lookup name rest
  end.

(** The attribute [name] of [o], when it has one. The builtin values carry
    none of the attributes read by the getters; a type alias has its three
    slots. *)
Definition py_attr (o : pyobj) (name : string) : option pyobj :=
  match o with
  | PyObj _ _ attrs => assoc_lookup name attrs
  | PyTypeAlias n v i =>
      if String.eqb name "name" then Some (PyStr n)
      else if String.eqb name "type_var" then Some v
      else if String.eqb name "impl_type" then Some i
      else None
  | _ => None
  end.

(** [getattr(o, name, default)]. *)
Definition getattr_default (o : pyobj) (name : string) (dflt : pyobj)
  : pyobj :=
  default dflt (py_attr o name).

(* ------------------------------------------------------------------ *)
(** ** Strings *)

(** The text of [s] before the first [sep] and the text after it, when
    [sep] occurs in [s]. *)
Fixpoint split_first (sep : ascii) (s : string) : option (string * string) :=
  match s with
  | EmptyString => None
  | String c rest =>
      if Ascii.eqb c sep then Some (EmptyString, rest)
      else match split_first sep rest with
           | Some (before, after) => Some (String c before, after)
           | None => None
           end
  end.

(** [s.partition(sep)] for a one-character separator: the 3-tuple
    [(before, sep, after)] around the first [sep], or [(s, '', '')] when
    [s] does not contain [sep]. *)
Definition partition (s : string) (sep : ascii) : string * string * string :=
  match split_first sep s with
  | Some (before, after) => (before, String sep EmptyString, after)
  | None => (s, EmptyString, EmptyString)
  end.

(** [sep] occurs in [s]. *)
Fixpoint occurs (sep : ascii) (s : string) : bool :=
  match s with
  | EmptyString => false
  | String c rest => Ascii.eqb c sep || occurs sep rest
  end.

(** [needle] occurs in [hay] as a contiguous substring. *)
Definition embeds (needle hay : string) : Prop :=
  exists pre post : string, hay = pre +:+ needle +:+ post.

(** The one-character string holding a double quote. *)
Definition dquote : string := String (ascii_of_nat 34) EmptyString.

(** The newline of an f-string's [\n]. *)
Definition newline : string := String (ascii_of_nat 10) EmptyString.

(** [', '.join(items)]. *)
Fixpoint join_comma (items : list string) : string :=
  match items with
  | [] => EmptyString
  | [x] => x
  | x :: rest => x +:+ ", " +:+ join_comma rest
  end.

(** [repr(o)]. An object other than the builtin values carries its own
    representation; a Python 3.6 type alias prints as [name[type_var]],
    where a class prints by its qualified name (without the module when
    that is [builtins]) as [typing._type_repr] does. *)
Fixpoint repr (o : pyobj) : string :=
  match o with
  | PyNone => "None"
  | PyStr s => "'" +:+ s +:+ "'"
  | PyTuple xs =>
      match xs with
      | [x] => "(" +:+ repr x +:+ ",)"
      | _ => "(" +:+ join_comma (List.map repr xs) +:+ ")"
      end
  | PyTypeAlias n v _ =>
      n +:+ "[" +:+
      match v with
      | PyObj KType r attrs =>
          match assoc_lookup "__module__" attrs,
                assoc_lookup "__qualname__" attrs with
          | Some (PyStr m), Some (PyStr q) =>
              if String.eqb m "builtins" then q else m +:+ "." +:+ q
          | _, _ => r
          end
      | _ => repr v
      end +:+ "]"
  | PyObj _ r _ => r
  end.

(** [repr(frozenset)] of a frozen set of objects, in the order listed. *)
Definition repr_frozenset (xs : list pyobj) : string :=
  "frozenset({" +:+ join_comma (List.map repr xs) +:+ "})".

(* ------------------------------------------------------------------ *)
(** ** Exceptions and warnings *)

(** The exception classes raised by the two modules and by the attribute
    accesses and assertions they perform. *)
Inductive exn_class : Type :=
  | BeartypeDecorHintPepException
  | BeartypeDecorHintPepSignException
  | AttributeError
  | TypeError
  | AssertionError.

#[global] Instance exn_class_eq_dec : EqDecision exn_class.
Proof. solve_decision. Defined.

Record exn : Type := mk_exn { exn_cls : exn_class; exn_msg : string }.

(** Outcome of a call: a returned value or a raised exception. *)
Inductive result (A : Type) : Type :=
  | Return : A -> result A
  | Raise : exn -> result A.
Arguments Return {A} _.
Arguments Raise {A} _.

#[global] Instance result_ret : MRet result := fun A x => Return x.
#[global] Instance result_bind : MBind result :=
  fun A B f m => match m with Return x => f x | Raise e => Raise e end.

(** The call raised. *)
Definition raises {A : Type} (r : result A) : Prop :=
  match r with Return _ => False | Raise _ => True end.

(** The call raised an exception of class [c]. *)
Definition raises_cls {A : Type} (c : exn_class) (r : result A) : Prop :=
  match r with Return _ => False | Raise e => exn_cls e = c end.

(** [assert cond, msg], with assertions enabled as they are by default. *)
Definition py_assert (cond : bool) (msg : string) : result unit :=
  if cond then Return tt else Raise (mk_exn AssertionError msg).

(** [o.name]: the attribute, or [AttributeError]. *)
Definition getattr_strict (o : pyobj) (name : string) : result pyobj :=
  match py_attr o name with
  | Some v => Return v
  | None =>
      Raise (mk_exn AttributeError
        ("object " +:+ repr o +:+ " has no attribute '" +:+ name +:+ "'"))
  end.

(** The warning categories of [beartype.roar._roarwarn] on the path from
    [BeartypeDecorHintPep585DeprecationWarning] up to [BeartypeWarning]. *)
Inductive warning_class : Type :=
  | BeartypeWarning
  | BeartypeDecorHintWarning
  | BeartypeDecorHintPepWarning
  | BeartypeDecorHintPepDeprecationWarning
  | BeartypeDecorHintPep585DeprecationWarning
  | BeartypeDecorHintPep613DeprecationWarning.

(** The beartype superclass each category is declared with. *)
Definition warning_base (c : warning_class) : option warning_class :=
  match c with
  | BeartypeWarning => None
  | BeartypeDecorHintWarning => Some BeartypeWarning
  | BeartypeDecorHintPepWarning => Some BeartypeDecorHintWarning
  | BeartypeDecorHintPepDeprecationWarning => Some BeartypeDecorHintPepWarning
  | BeartypeDecorHintPep585DeprecationWarning =>
      Some BeartypeDecorHintPepDeprecationWarning
  | BeartypeDecorHintPep613DeprecationWarning =>
      Some BeartypeDecorHintPepDeprecationWarning
  end.

Record warning : Type :=
  mk_warning { warning_cls : warning_class; warning_msg : string }.

(** Modelled from the spec: [issue_warning] of
    [beartype._util.error.utilerrwarn] is not among the sources; the spec
    describes it as a signal-emission facility [emit_advisory(signal_kind,
    message)] that emits and does not raise. Here it appends the warning to
    the log of warnings emitted so far. *)
Definition issue_warning (cls : warning_class) (message : string)
    (log : list warning) : list warning :=
  log ++ [mk_warning cls message].

(* ------------------------------------------------------------------ *)
(** ** The host: what the two modules import *)

(** Everything [utilhintpepget] and [utilpep484] import from modules that
    are not among the sources: the interpreter version flags of
    [beartype._util.py.utilpyversion], the objects of [typing] and
    [beartype._cave], the frozen sets of [utilhintdatapep] and
    [datapeprepr], and the testers, getters and importer of the sibling
    utility modules. A raising collaborator returns [Raise]. *)
Record Host : Type := {
  IS_PYTHON_3_6 : bool;
  IS_PYTHON_AT_LEAST_3_7 : bool;
  IS_PYTHON_AT_LEAST_3_9 : bool;

  typing : pyobj;
  NoneType : pyobj;
  Generic : pyobj;
  NewType : pyobj;
  TypeVar : pyobj;
  HINT_PEP484_TYPE_FORWARDREF : pyobj;
  SENTINEL : pyobj;

  HINT_PEP_MODULE_NAMES : gset string;
  HINT_PEP_SIGNS_TYPE : list pyobj;
  HINT_PEP_SIGNS_TYPE_ORIGIN_STDLIB : list pyobj;
  HINTS_PEP484_REPR_PREFIX_DEPRECATED : gset string;
  URL_PEP585_DEPRECATIONS : string;

  die_unless_hint_pep : pyobj -> result unit;
  is_hint_pep_generic : pyobj -> bool;
  is_hint_pep_typevar : pyobj -> bool;
  is_hint_forwardref : pyobj -> bool;
  is_hint_pep484_newtype : pyobj -> bool;
  is_hint_pep585_builtin : pyobj -> bool;
  is_hint_pep585_generic : pyobj -> bool;
  get_hint_pep484_generic_bases_unerased : pyobj -> result (list pyobj);
  get_hint_pep585_generic_bases_unerased : pyobj -> result (list pyobj);
  get_hint_pep585_generic_typevars : pyobj -> result (list pyobj);
  import_module : string -> exn_class -> result pyobj;
  get_hint_repr : pyobj -> string;
}.

(** [x in frozenset] for a frozen set of objects. *)
Definition py_in (x : pyobj) (xs : list pyobj) : bool :=
  bool_decide (x ∈ xs).

(* ------------------------------------------------------------------ *)
(** ** utilhintpepget.py *)

(** Mapping from the bad [typing] names some [__repr__] methods print to
    the names of the attributes that exist. *)
Definition _HINT_PEP_TYPING_NAME_BAD_TO_GOOD : gmap string string :=
  <[ "AbstractContextManager" := "ContextManager" ]>
  (<[ "AbstractAsyncContextManager" := "AsyncContextManager" ]> ∅).

Section Getters.
Context (host : Host).

(** [get_hint_pep_args]: one implementation for Python >= 3.7, another
    for Python 3.6. *)
Definition get_hint_pep_args (hint : pyobj) : pyobj :=
  if IS_PYTHON_AT_LEAST_3_7 host then
    getattr_default hint "__args__" (PyTuple [])
  else
    match hint with
    | PyTypeAlias _ type_var _ =>
        if is_hint_pep_typevar host type_var then PyTuple []
        else PyTuple [type_var]
    | _ =>
        py_or (getattr_default hint "__args__" (PyTuple [])) (PyTuple [])
    end.

(** [get_hint_pep_typevars]: one implementation for Python >= 3.9, one
    for Python 3.7 and 3.8, one for Python 3.6. *)
Definition get_hint_pep_typevars (hint : pyobj) : result pyobj :=
  if IS_PYTHON_AT_LEAST_3_9 host then
    let hint_pep_typevars := getattr_default hint "__parameters__" PyNone in
    if is_None hint_pep_typevars then
      if is_hint_pep585_generic host hint then
        tvs ← get_hint_pep585_generic_typevars host hint;
        Return (PyTuple tvs)
      else Return (PyTuple [])
    else Return hint_pep_typevars
  else if IS_PYTHON_AT_LEAST_3_7 host then
    Return (getattr_default hint "__parameters__" (PyTuple []))
  else
    match hint with
    | PyTypeAlias _ type_var _ =>
        if is_hint_pep_typevar host type_var
        then Return (PyTuple [type_var])
        else Return (PyTuple [])
    | _ =>
        Return (py_or (getattr_default hint "__parameters__" (PyTuple []))
                      (PyTuple []))
    end.

(** The tail of [get_hint_pep_sign] (from [hint_name = repr(hint)] to the
    final [return sign]): the sign read off the representation of the
    hint. *)
Definition get_hint_pep_sign_from_repr (hint : pyobj) : result pyobj :=
  let hint_name := repr hint in
  let '(hint_module_name, _, hint_module_attr_name) :=
    partition hint_name "." in
  if bool_decide (hint_module_name ∉ HINT_PEP_MODULE_NAMES host) then
    Raise (mk_exn BeartypeDecorHintPepSignException
      ("Type hint " +:+ repr hint +:+ " representation " +:+ dquote +:+
       hint_name +:+ dquote +:+ " not prefixed by " +:+ dquote +:+
       "typing." +:+ dquote +:+ " or " +:+ dquote +:+
       "typing_extensions." +:+ dquote +:+ "."))
  else
    let '(sign_name, _, _) := partition hint_module_attr_name "[" in
    let sign_name :=
      default sign_name (_HINT_PEP_TYPING_NAME_BAD_TO_GOOD !! sign_name) in
    hint_module ←
      import_module host hint_module_name BeartypeDecorHintPepSignException;
    let sign := getattr_default hint_module sign_name PyNone in
    if is_None sign then
      Raise (mk_exn BeartypeDecorHintPepSignException
        ("Type hint " +:+ repr hint +:+ " attribute " +:+ dquote +:+
         "typing." +:+ sign_name +:+ dquote +:+ " not found."))
    else Return sign.

(** The test of the standard-class branch of [get_hint_pep_sign]:
    [isinstance(hint, type) and not (get_hint_pep_args(hint) or
    get_hint_pep_typevars(hint))], evaluated left to right with the
    short circuits of [and] and [or]. *)
Definition is_class_unsubscripted (hint : pyobj) : result bool :=
  if isinstance_type hint then
    let args := get_hint_pep_args hint in
    if truthy args then Return false
    else
      typevars ← get_hint_pep_typevars hint;
      Return (negb (truthy typevars))
  else Return false.

(** [get_hint_pep_sign], the function under [@callable_cached]. *)
Definition get_hint_pep_sign (hint : pyobj) : result pyobj :=
  _ ← die_unless_hint_pep host hint;
  if is_None hint then Return (NoneType host)
  else if is_hint_pep_generic host hint then Return (Generic host)
  else if is_hint_pep585_builtin host hint then
    getattr_strict hint "__origin__"
  else
    standard ← is_class_unsubscripted hint;
    if (standard : bool) then
      if negb (py_in hint (HINT_PEP_SIGNS_TYPE host)) then
        Raise (mk_exn BeartypeDecorHintPepSignException
          ("Unsubscripted non-generic class " +:+ repr hint +:+
           " invalid as sign (i.e., not in " +:+
           repr_frozenset (HINT_PEP_SIGNS_TYPE host) +:+ ")."))
      else Return hint
    else if is_hint_forwardref host hint then
      Return (HINT_PEP484_TYPE_FORWARDREF host)
    else if is_hint_pep484_newtype host hint then Return (NewType host)
    else if is_hint_pep_typevar host hint then Return (TypeVar host)
    else if IS_PYTHON_3_6 host && isinstance_TypeAlias hint then
      name ← getattr_strict hint "name";
      match name with
      | PyStr attr => getattr_strict (typing host) attr
      | _ =>
          Raise (mk_exn TypeError "getattr(): attribute name must be string")
      end
    else get_hint_pep_sign_from_repr hint.

(** [_get_hint_pep_origin_object_or_none]: one implementation for Python
    >= 3.7, another for Python 3.6. *)
Definition _get_hint_pep_origin_object_or_none (hint : pyobj) : pyobj :=
  if IS_PYTHON_AT_LEAST_3_7 host then
    getattr_default hint "__origin__" PyNone
  else
    match hint with
    | PyTypeAlias _ _ impl_type => impl_type
    | _ =>
        let hint_extra := getattr_default hint "__extra__" (SENTINEL host) in
        if negb (is_None hint_extra) then hint_extra
        else getattr_default hint "__origin__" PyNone
    end.

(** [get_hint_pep_generic_type_or_none], the function under
    [@callable_cached]. *)
Definition get_hint_pep_generic_type_or_none (hint : pyobj) : pyobj :=
  let hint_origin := _get_hint_pep_origin_object_or_none hint in
  if isinstance_type hint_origin then hint_origin
  else if isinstance_type hint then hint
  else PyNone.

(** [get_hint_pep_stdlib_type_or_none]. *)
Definition get_hint_pep_stdlib_type_or_none (hint : pyobj)
  : result pyobj :=
  hint_sign ← get_hint_pep_sign hint;
  Return (
    if py_in hint_sign (HINT_PEP_SIGNS_TYPE_ORIGIN_STDLIB host)
    then _get_hint_pep_origin_object_or_none hint
    else PyNone).

(** [get_hint_pep_stdlib_type]. *)
Definition get_hint_pep_stdlib_type (hint : pyobj) : result pyobj :=
  hint_type_origin ← get_hint_pep_stdlib_type_or_none hint;
  if is_None hint_type_origin then
    Raise (mk_exn BeartypeDecorHintPepException
      ("PEP type hint " +:+ repr hint +:+ " not originative " +:+
       "(i.e., does not originate from external class)."))
  else Return hint_type_origin.

(** [get_hint_pep_generic_bases_unerased]. A tuple is false exactly when
    it is empty. *)
Definition get_hint_pep_generic_bases_unerased (hint : pyobj)
  : result (list pyobj) :=
  hint_pep_generic_bases_unerased ←
    (if is_hint_pep585_generic host hint
     then get_hint_pep585_generic_bases_unerased host hint
     else get_hint_pep484_generic_bases_unerased host hint);
  if negb (truthy (PyTuple hint_pep_generic_bases_unerased)) then
    Raise (mk_exn BeartypeDecorHintPepException
      ("PEP generic " +:+ repr hint +:+ " subclasses no superclasses."))
  else Return hint_pep_generic_bases_unerased.

End Getters.

(* ------------------------------------------------------------------ *)
(** ** Memoization *)

(** Modelled from the spec: the decorator [callable_cached] of
    [beartype._util.cache.utilcachecall] is not among the sources; the spec
    treats it as an opaque memoize-by-arguments utility whose cache is
    keyed by the hint and never invalidated. The cache is an association
    list from hints to the outcome recorded for them; a call returns the
    recorded outcome when there is one and otherwise runs the function and
    records what it did. *)
Fixpoint cache_lookup {R : Type} (hint : pyobj) (cache : list (pyobj * R))
  : option R :=
  match cache with
  | [] => None
  | (k, r) :: rest =>
      if bool_decide (k = hint) then Some r else cache_lookup hint rest
  end.

Definition callable_cached {R : Type} (f : pyobj -> R)
    (cache : list (pyobj * R)) (hint : pyobj) : R * list (pyobj * R) :=
  match cache_lookup hint cache with
  | Some r => (r, cache)
  | None => let r := f hint in (r, (hint, r) :: cache)
  end.

(** Every outcome recorded in [cache] is the one [f] has. *)
Definition cache_coherent {R : Type} (f : pyobj -> R)
    (cache : list (pyobj * R)) : Prop :=
  Forall (fun kr => snd kr = f (fst kr)) cache.

(** [get_hint_pep_sign] as callers see it, through its cache. *)
Definition get_hint_pep_sign_cached (host : Host) :=
  callable_cached (get_hint_pep_sign host).

(** [get_hint_pep_generic_type_or_none] as callers see it, through its
    cache. *)
Definition get_hint_pep_generic_type_or_none_cached (host : Host) :=
  callable_cached (get_hint_pep_generic_type_or_none host).

(* ------------------------------------------------------------------ *)
(** ** utilpep484.py *)

(** [isinstance(o, str)]. *)
Definition isinstance_str (o : pyobj) : bool :=
  match o with
  | PyStr _ => true
  | _ => false
  end.

(** What an f-string substitutes for [{o}]: a string stands for itself,
    any other object here for its representation. *)
Definition format (o : pyobj) : string :=
  match o with
  | PyStr s => s
  | _ => repr o
  end.

(** [is_hint_pep484_typevar_ignorable]. *)
Definition is_hint_pep484_typevar_ignorable (hint : pyobj) : bool := true.

Section Reducers.
Context (host : Host).

(** [reduce_hint_pep484_deprecated]. The positional and keyword
    arguments after [exception_prefix] are ignored. The second component
    is the log of warnings after the call. *)
Definition reduce_hint_pep484_deprecated
    (hint exception_prefix : pyobj)
    (args : list pyobj) (kwargs : list (string * pyobj))
    (log : list warning) : result pyobj * list warning :=
  match py_assert (isinstance_str exception_prefix)
          (repr exception_prefix +:+ " not string.") with
  | Raise e => (Raise e, log)
  | Return _ =>
      let hint_repr := get_hint_repr host hint in
      let '(hint_repr_bare, _, _) := partition hint_repr "[" in
      let log :=
        if bool_decide
             (hint_repr_bare ∈ HINTS_PEP484_REPR_PREFIX_DEPRECATED host)
        then
          issue_warning BeartypeDecorHintPep585DeprecationWarning
            (format exception_prefix +:+ "PEP 484 type hint " +:+
             repr hint +:+ " deprecated by PEP 585. " +:+
             "This hint is scheduled for removal in the first Python " +:+
             "version released after October 5th, 2025. To resolve this, " +:+
             "import this hint from " +:+ dquote +:+ "beartype.typing" +:+
             dquote +:+ " rather than " +:+ dquote +:+ "typing" +:+
             dquote +:+ ". " +:+
             "For further commentary and alternatives, see also:" +:+
             newline +:+ "    " +:+ URL_PEP585_DEPRECATIONS host)
            log
        else log in
      (Return hint, log)
  end.

(** [reduce_hint_pep484_none]. The arguments after [hint] are ignored. *)
Definition reduce_hint_pep484_none
    (hint : pyobj) (args : list pyobj) (kwargs : list (string * pyobj))
  : result pyobj :=
  _ ← py_assert (is_None hint)
        ("Type hint " +:+ format hint +:+ " not " +:+ dquote +:+ "None" +:+
         dquote +:+ " singleton.");
  Return (NoneType host).

End Reducers.

(* ------------------------------------------------------------------ *)
(** ** Two hosts to evaluate on

    A small [typing] world, once as CPython >= 3.9 sees it and once as
    CPython 3.6 does, with collaborators that follow the shape of the
    beartype ones. *)
Module World.

Definition builtin_class (name : string) : pyobj :=
  PyObj KType ("<class '" +:+ name +:+ "'>")
    [("__module__", PyStr "builtins"); ("__qualname__", PyStr name)].

Definition typing_class (name : string) : pyobj :=
  PyObj KType ("<class 'typing." +:+ name +:+ "'>")
    [("__module__", PyStr "typing"); ("__qualname__", PyStr name)].

Definition int : pyobj := builtin_class "int".
Definition str : pyobj := builtin_class "str".
Definition list_ : pyobj := builtin_class "list".
Definition NoneType : pyobj := builtin_class "NoneType".
Definition re_Pattern : pyobj := builtin_class "_sre.SRE_Pattern".

Definition Generic : pyobj := typing_class "Generic".
Definition TypeVar : pyobj := typing_class "TypeVar".
Definition ForwardRef : pyobj := typing_class "ForwardRef".
Definition SupportsInt : pyobj := typing_class "SupportsInt".
Definition NewType : pyobj := PyObj KOther "<function NewType>" [].
Definition SENTINEL : pyobj := PyObj KOther "<object object>" [].

(** [T = TypeVar('T')] and [typing.AnyStr]. *)
Definition T : pyobj := PyObj KOther "~T" [("__name__", PyStr "T")].
Definition AnyStr : pyobj :=
  PyObj KOther "~AnyStr" [("__name__", PyStr "AnyStr")].

Definition Any : pyobj := PyObj KOther "typing.Any" [].
Definition Union : pyobj := PyObj KOther "typing.Union" [].
Definition List : pyobj :=
  PyObj KOther "typing.List" [("__origin__", list_)].
Definition ContextManager : pyobj :=
  PyObj KOther "typing.AbstractContextManager" [].

(** [typing.Union[int, str]], [typing.List[int]] and [list[int]]. *)
Definition Union_int_str : pyobj :=
  PyObj KOther "typing.Union[int, str]"
    [("__origin__", Union); ("__args__", PyTuple [int; str]);
     ("__parameters__", PyTuple [])].
Definition List_int : pyobj :=
  PyObj KOther "typing.List[int]"
    [("__origin__", list_); ("__args__", PyTuple [int]);
     ("__parameters__", PyTuple [])].
Definition list_int : pyobj :=
  PyObj KOther "list[int]"
    [("__origin__", list_); ("__args__", PyTuple [int]);
     ("__parameters__", PyTuple [])].

(** [class MuhGeneric(Generic[T])] and [MuhGeneric[int]]. *)
Definition Generic_T : pyobj :=
  PyObj KOther "typing.Generic[~T]"
    [("__origin__", Generic); ("__args__", PyTuple [T]);
     ("__parameters__", PyTuple [T])].
Definition MuhGeneric : pyobj :=
  PyObj KType "<class '__main__.MuhGeneric'>"
    [("__orig_bases__", PyTuple [Generic_T]);
     ("__parameters__", PyTuple [T])].
Definition MuhGeneric_int : pyobj :=
  PyObj KOther "__main__.MuhGeneric[int]"
    [("__origin__", MuhGeneric); ("__args__", PyTuple [int]);
     ("__parameters__", PyTuple [])].

(** A class claiming to be generic whose [__orig_bases__] is empty. *)
Definition Baseless : pyobj :=
  PyObj KType "<class '__main__.Baseless'>"
    [("__orig_bases__", PyTuple [])].

(** An instance of [class Legacy: __args__ = None], whose [__args__] is
    [None], and the unsubscripted [typing.Tuple] of Python 3.6, whose
    [__args__] and [__parameters__] are [None] as well. *)
Definition Legacy : pyobj :=
  PyObj KOther "<__main__.Legacy object>" [("__args__", PyNone)].
Definition Tuple36 : pyobj :=
  PyObj KType "typing.Tuple"
    [("__args__", PyNone); ("__parameters__", PyNone);
     ("__origin__", PyNone); ("__extra__", builtin_class "tuple")].

(** A forward reference and a new type. *)
Definition FwdRef : pyobj :=
  PyObj KOther "ForwardRef('str')" [("__forward_arg__", PyStr "str")].
Definition UserId : pyobj :=
  PyObj KOther "<function NewType.<locals>.new_type>"
    [("__supertype__", int)].

(** Python 3.6: [typing.Pattern] and [typing.Pattern[str]]. *)
Definition Pattern : pyobj := PyTypeAlias "Pattern" AnyStr re_Pattern.
Definition Pattern_str : pyobj := PyTypeAlias "Pattern" str re_Pattern.

Definition typing : pyobj :=
  PyObj KModule "<module 'typing'>"
    [("Any", Any); ("Union", Union); ("List", List);
     ("Generic", Generic); ("TypeVar", TypeVar); ("NewType", NewType);
     ("ContextManager", ContextManager); ("Pattern", Pattern);
     ("SupportsInt", SupportsInt)].

Definition HINT_PEP_MODULE_NAMES : gset string :=
  {[ "typing"; "typing_extensions" ]}.

Definition has_attr (o : pyobj) (name : string) : bool :=
  match py_attr o name with Some _ => true | None => false end.

Definition is_hint_pep_typevar (hint : pyobj) : bool :=
  String.prefix "~" (repr hint).

Definition is_hint_forwardref (hint : pyobj) : bool :=
  isinstance_str hint || has_attr hint "__forward_arg__".

Definition is_hint_pep484_newtype (hint : pyobj) : bool :=
  has_attr hint "__supertype__".

Definition is_hint_pep585_builtin (hint : pyobj) : bool :=
  bool_decide (hint = list_int).

Definition is_hint_pep585_generic (hint : pyobj) : bool := false.

Definition is_hint_pep_generic (hint : pyobj) : bool :=
  has_attr hint "__orig_bases__" ||
  has_attr (getattr_default hint "__origin__" PyNone) "__orig_bases__".

Definition not_generic (hint : pyobj) : exn :=
  mk_exn BeartypeDecorHintPepException
    ("PEP type hint " +:+ repr hint +:+ " not generic.").

Definition get_hint_pep484_generic_bases_unerased (hint : pyobj)
  : result (list pyobj) :=
  match py_attr hint "__orig_bases__" with
  | Some (PyTuple bases) => Return bases
  | _ => Raise (not_generic hint)
  end.

Definition get_hint_pep585_generic_bases_unerased (hint : pyobj)
  : result (list pyobj) :=
  Raise (not_generic hint).

Definition get_hint_pep585_generic_typevars (hint : pyobj)
  : result (list pyobj) :=
  Raise (not_generic hint).

Definition HINT_PEP_SIGNS_TYPE : list pyobj := [Generic; ForwardRef; TypeVar].

Definition is_hint_pep (hint : pyobj) : bool :=
  is_None hint || is_hint_pep_generic hint || is_hint_pep585_builtin hint
  || is_hint_forwardref hint || is_hint_pep484_newtype hint
  || is_hint_pep_typevar hint || isinstance_TypeAlias hint
  || String.prefix "typing." (repr hint)
  || bool_decide (py_attr hint "__module__" = Some (PyStr "typing")).

Definition die_unless_hint_pep (hint : pyobj) : result unit :=
  if is_hint_pep hint then Return tt
  else Raise (mk_exn BeartypeDecorHintPepException
                (repr hint +:+ " not PEP-compliant."))%string.

Definition import_module (module_name : string) (exception_cls : exn_class)
  : result pyobj :=
  if String.eqb module_name "typing" then Return typing
  else Raise (mk_exn exception_cls
                ("Module " +:+ dquote +:+ module_name +:+ dquote +:+
                 " unimportable.")).

End World.

(** The host of the world above; the interpreter flags are the three
    booleans, the rest is shared. *)
Definition sample_host (is36 atleast37 atleast39 : bool) : Host := {|
  IS_PYTHON_3_6 := is36;
  IS_PYTHON_AT_LEAST_3_7 := atleast37;
  IS_PYTHON_AT_LEAST_3_9 := atleast39;
  typing := World.typing;
  NoneType := World.NoneType;
  Generic := World.Generic;
  NewType := World.NewType;
  TypeVar := World.TypeVar;
  HINT_PEP484_TYPE_FORWARDREF := World.ForwardRef;
  SENTINEL := World.SENTINEL;
  HINT_PEP_MODULE_NAMES := World.HINT_PEP_MODULE_NAMES;
  HINT_PEP_SIGNS_TYPE := World.HINT_PEP_SIGNS_TYPE;
  HINT_PEP_SIGNS_TYPE_ORIGIN_STDLIB := [World.list_; World.List];
  HINTS_PEP484_REPR_PREFIX_DEPRECATED :=
    if atleast39 then {[ "typing.List"; "typing.Dict" ]} else ∅;
  URL_PEP585_DEPRECATIONS :=
    "https://github.com/beartype/beartype#pep-585-deprecations";
  die_unless_hint_pep := World.die_unless_hint_pep;
  is_hint_pep_generic := World.is_hint_pep_generic;
  is_hint_pep_typevar := World.is_hint_pep_typevar;
  is_hint_forwardref := World.is_hint_forwardref;
  is_hint_pep484_newtype := World.is_hint_pep484_newtype;
  is_hint_pep585_builtin := World.is_hint_pep585_builtin;
  is_hint_pep585_generic := World.is_hint_pep585_generic;
  get_hint_pep484_generic_bases_unerased :=
    World.get_hint_pep484_generic_bases_unerased;
  get_hint_pep585_generic_bases_unerased :=
    World.get_hint_pep585_generic_bases_unerased;
  get_hint_pep585_generic_typevars := World.get_hint_pep585_generic_typevars;
  import_module := World.import_module;
  get_hint_repr := repr;
|}.

Definition py39 : Host := sample_host false true true.
Definition py36 : Host := sample_host true false false.

(* ------------------------------------------------------------------ *)
(** ** Vocabulary of the statements *)

(** None of the structural tests of [get_hint_pep_sign] before the type
    alias one matches [hint]: it passes [die_unless_hint_pep], is not
    [None], not a generic, not a PEP 585 builtin, not a class without
    arguments and type variables, not a forward reference, not a new type
    and not a type variable. *)
Definition structural_branches_miss (host : Host) (hint : pyobj) : Prop :=
  die_unless_hint_pep host hint = Return tt /\
  hint <> PyNone /\
  is_hint_pep_generic host hint = false /\
  is_hint_pep585_builtin host hint = false /\
  is_class_unsubscripted host hint = Return false /\
  is_hint_forwardref host hint = false /\
  is_hint_pep484_newtype host hint = false /\
  is_hint_pep_typevar host hint = false.

(** The module name the representation of [hint] starts with: the text
    before its first dot. *)
Definition repr_module_name (hint : pyobj) : string :=
  (partition (repr hint) ".").1.1.

(** The attribute name the representation of [hint] stands for: the text
    after the first dot, up to the first bracket, corrected by
    [_HINT_PEP_TYPING_NAME_BAD_TO_GOOD]. *)
Definition repr_sign_name (hint : pyobj) : string :=
  let unsubscripted := (partition (partition (repr hint) ".").2 "[").1.1 in
  default unsubscripted (_HINT_PEP_TYPING_NAME_BAD_TO_GOOD !! unsubscripted).

(** The pseudo-superclasses the extractor of the hint's category yields,
    as [get_hint_pep_generic_bases_unerased] asks for them. *)
Definition extracted_bases (host : Host) (hint : pyobj)
  : result (list pyobj) :=
  if is_hint_pep585_generic host hint
  then get_hint_pep585_generic_bases_unerased host hint
  else get_hint_pep484_generic_bases_unerased host hint.

(** The text of the representation of [hint], as [get_hint_repr] gives
    it, before its first opening bracket. *)
Definition repr_bare (host : Host) (hint : pyobj) : string :=
  (partition (get_hint_repr host hint) "[").1.1.

(* ------------------------------------------------------------------ *)
(** ** beartype/roar/_roarwarn.py *)

Module Roar.

(** The classes of the warning hierarchy: the three builtin categories the
    module builds on, then every class the module declares, in the order
    of the file. *)
Inductive cls : Type :=
  | Warning
  | UserWarning
  | DeprecationWarning
  | BeartypeWarning
  | BeartypeClawWarning
  | BeartypeClawDecorWarning
  | BeartypeConfWarning
  | BeartypeConfShellVarWarning
  | BeartypeDecorHintWarning
  | BeartypeDecorHintParamDefaultForwardRefWarning
  | BeartypeDecorHintPepWarning
  | BeartypeDecorHintPepDeprecationWarning
  | BeartypeDecorHintPep585DeprecationWarning
  | BeartypeDecorHintPep613DeprecationWarning
  | BeartypeDecorHintNonpepWarning
  | BeartypeDecorHintNonpepNumpyWarning
  | BeartypeModuleWarning
  | BeartypeModuleNotFoundWarning
  | BeartypeModuleAttributeNotFoundWarning
  | BeartypeModuleUnimportableWarning
  | BeartypeDoorWarning
  | BeartypeDoorInferHintWarning
  | BeartypeDoorInferHintRecursionWarning
  | BeartypeValeWarning
  | BeartypeValeLambdaWarning
  | _BeartypeConfReduceDecoratorExceptionToWarningDefault
  | _BeartypeUtilWarning
  | _BeartypeUtilCallableWarning.

#[global] Instance cls_eq_dec : EqDecision cls.
Proof. solve_decision. Defined.

(** The superclasses each [class] statement lists, in order. The builtin
    [UserWarning] and [DeprecationWarning] derive from [Warning], which is
    the root here. *)
Definition bases (c : cls) : list cls :=
  match c with
  | Warning => []
  | UserWarning => [Warning]
  | DeprecationWarning => [Warning]
  | BeartypeWarning => [UserWarning]
  | BeartypeClawWarning => [BeartypeWarning]
  | BeartypeClawDecorWarning => [BeartypeClawWarning]
  | BeartypeConfWarning => [BeartypeWarning]
  | BeartypeConfShellVarWarning => [BeartypeConfWarning]
  | BeartypeDecorHintWarning => [BeartypeWarning]
  | BeartypeDecorHintParamDefaultForwardRefWarning =>
      [BeartypeDecorHintWarning]
  | BeartypeDecorHintPepWarning => [BeartypeDecorHintWarning]
  | BeartypeDecorHintPepDeprecationWarning =>
      [BeartypeDecorHintPepWarning; DeprecationWarning]
  | BeartypeDecorHintPep585DeprecationWarning =>
      [BeartypeDecorHintPepDeprecationWarning]
  | BeartypeDecorHintPep613DeprecationWarning =>
      [BeartypeDecorHintPepDeprecationWarning]
  | BeartypeDecorHintNonpepWarning => [BeartypeWarning]
  | BeartypeDecorHintNonpepNumpyWarning => [BeartypeDecorHintNonpepWarning]
  | BeartypeModuleWarning => [BeartypeWarning]
  | BeartypeModuleNotFoundWarning => [BeartypeModuleWarning]
  | BeartypeModuleAttributeNotFoundWarning => [BeartypeModuleWarning]
  | BeartypeModuleUnimportableWarning => [BeartypeModuleWarning]
  | BeartypeDoorWarning => [BeartypeWarning]
  | BeartypeDoorInferHintWarning => [BeartypeDoorWarning]
  | BeartypeDoorInferHintRecursionWarning => [BeartypeDoorInferHintWarning]
  | BeartypeValeWarning => [BeartypeWarning]
  | BeartypeValeLambdaWarning => [BeartypeValeWarning]
  | _BeartypeConfReduceDecoratorExceptionToWarningDefault =>
      [BeartypeConfWarning]
  | _BeartypeUtilWarning => [BeartypeWarning]
  | _BeartypeUtilCallableWarning => [_BeartypeUtilWarning]
  end.

(** The class is declared by [_roarwarn.py] rather than a builtin. *)
Definition declared (c : cls) : bool :=
  match c with
  | Warning | UserWarning | DeprecationWarning => false
  | _ => true
  end.

(** Every class, in the order above. *)
Definition classes : list cls :=
  [Warning; UserWarning; DeprecationWarning; BeartypeWarning;
   BeartypeClawWarning; BeartypeClawDecorWarning; BeartypeConfWarning;
   BeartypeConfShellVarWarning; BeartypeDecorHintWarning;
   BeartypeDecorHintParamDefaultForwardRefWarning;
   BeartypeDecorHintPepWarning; BeartypeDecorHintPepDeprecationWarning;
   BeartypeDecorHintPep585DeprecationWarning;
   BeartypeDecorHintPep613DeprecationWarning;
   BeartypeDecorHintNonpepWarning; BeartypeDecorHintNonpepNumpyWarning;
   BeartypeModuleWarning; BeartypeModuleNotFoundWarning;
   BeartypeModuleAttributeNotFoundWarning;
   BeartypeModuleUnimportableWarning; BeartypeDoorWarning;
   BeartypeDoorInferHintWarning; BeartypeDoorInferHintRecursionWarning;
   BeartypeValeWarning; BeartypeValeLambdaWarning;
   _BeartypeConfReduceDecoratorExceptionToWarningDefault;
   _BeartypeUtilWarning; _BeartypeUtilCallableWarning].

(** [c] derives from [d]: [c] is [d], or one of the bases of [c] derives
    from [d]. *)
Inductive derives : cls -> cls -> Prop :=
  | derives_refl (c : cls) : derives c c
  | derives_base (c b d : cls) :
      List.In b (bases c) -> derives b d -> derives c d.

(** [issubclass(c, d)], following the bases at most [depth] times. *)
Fixpoint issubclass_upto (depth : nat) (c d : cls) : bool :=
  bool_decide (c = d) ||
  match depth with
  | 0 => false
  | S depth' => existsb (fun b => issubclass_upto depth' b d) (bases c)
  end.

(** [issubclass(c, d)]; no chain of bases is longer than the number of
    classes. *)
Definition issubclass (c d : cls) : bool :=
  issubclass_upto (length classes) c d.

(** The state [BeartypeWarning.__init__] writes: the [__module__]
    attribute of every class. *)
Definition modules : Type := cls -> string.

(** [__module__] of every class once the module is loaded: the declaring
    module. *)
Definition modules_loaded : modules :=
  fun c => if declared c then "beartype.roar._roarwarn" else "builtins".

(** [c(message)]: instantiating a class. [BeartypeWarning.__init__],
    which every class deriving from [BeartypeWarning] inherits, defers to
    the superclass and then assigns [self.__class__.__module__]; the
    builtin categories have the builtin initializer, which assigns
    nothing. *)
Definition instantiate (c : cls) (st : modules) : modules :=
  if issubclass c BeartypeWarning
  then fun d => if bool_decide (d = c) then "beartype.roar" else st d
  else st.

(** One instantiation after the other. *)
Definition instantiate_all (cs : list cls) (st : modules) : modules :=
  foldl (fun st c => instantiate c st) st cs.

End Roar.

(** The class of the hierarchy a warning category of the reducers is. *)
Definition roar_cls (c : warning_class) : Roar.cls :=
  match c with
  | BeartypeWarning => Roar.BeartypeWarning
  | BeartypeDecorHintWarning => Roar.BeartypeDecorHintWarning
  | BeartypeDecorHintPepWarning => Roar.BeartypeDecorHintPepWarning
  | BeartypeDecorHintPepDeprecationWarning =>
      Roar.BeartypeDecorHintPepDeprecationWarning
  | BeartypeDecorHintPep585DeprecationWarning =>
      Roar.BeartypeDecorHintPep585DeprecationWarning
  | BeartypeDecorHintPep613DeprecationWarning =>
      Roar.BeartypeDecorHintPep613DeprecationWarning
  end.

(* ------------------------------------------------------------------ *)
(** ** More hints to evaluate on *)

Module More.

(** [typing.Union[str, list]] and [typing.List[str]]. *)
Definition Union_str_list : pyobj :=
  PyObj KOther "typing.Union[str, list]"
    [("__origin__", World.Union);
     ("__args__", PyTuple [World.str; World.list_]);
     ("__parameters__", PyTuple [])].
Definition List_str : pyobj :=
  PyObj KOther "typing.List[str]"
    [("__origin__", World.list_); ("__args__", PyTuple [World.str]);
     ("__parameters__", PyTuple [])].

(** A hinting object that names an attribute [typing] does not have. *)
Definition Missing : pyobj := PyObj KOther "typing.Missing[int]" [].

(** The Python 3.6 alias [typing.Match[bytes]], which the sample [typing]
    module does not publish. *)
Definition Match_bytes : pyobj :=
  PyTypeAlias "Match" (World.builtin_class "bytes")
    (World.builtin_class "_sre.SRE_Match").

(** A user-defined Python 3.6 generic: its [__extra__] is [None] and its
    [__origin__] holds the generic it subscripts. *)
Definition Generic36 : pyobj :=
  PyObj KType "__main__.MuhGeneric[int]"
    [("__extra__", PyNone); ("__origin__", World.MuhGeneric);
     ("__args__", PyTuple [World.int]); ("__parameters__", PyNone)].

(** The Python 3.6 [typing.List[int]], which is a class there. *)
Definition List36_int : pyobj :=
  PyObj KType "typing.List[int]"
    [("__extra__", World.list_); ("__origin__", World.List);
     ("__args__", PyTuple [World.int]); ("__parameters__", PyTuple [])].

End More.

(** The sample host as CPython 3.7 and 3.8 see it. *)
Definition py38 : Host := sample_host false true false.

(* ------------------------------------------------------------------ *)
(** ** Basic facts *)

Ltac run :=
  unfold mbind, result_bind, mret, result_ret in *; simpl in *.

Lemma split_first_some (sep : ascii) (s before after : string) :
  split_first sep s = Some (before, after) ->
  s = before +:+ String sep after /\ occurs sep before = false.
Proof.
  revert before after.
  induction s as [|c rest IH]; intros before after; simpl.
  - discriminate.
  - destruct (Ascii.eqb c sep) eqn:Hc.
    + intros [= <- <-]. apply Ascii.eqb_eq in Hc. subst c. split; reflexivity.
    + destruct (split_first sep rest) as [[b a]|]; [|discriminate].
      intros [= <- <-].
      destruct (IH b a eq_refl) as [-> Hocc].
      split; [reflexivity|]. simpl. rewrite Hc. exact Hocc.
Qed.

Lemma split_first_none (sep : ascii) (s : string) :
  split_first sep s = None <-> occurs sep s = false.
Proof.
  induction s as [|c rest IH]; simpl.
  - split; reflexivity.
  - destruct (Ascii.eqb c sep); simpl.
    + split; discriminate.
    + destruct (split_first sep rest) as [[b a]|].
      * split; [discriminate|]. intros H. apply IH in H. discriminate.
      * split; [|reflexivity]. intros _. apply IH. reflexivity.
Qed.

(** [partition] cuts at the first separator: the text before it holds no
    separator and the three parts make up the string again. *)
Lemma partition_found (s : string) (sep : ascii) :
  occurs sep s = true ->
  let '(before, mid, after) := partition s sep in
  mid = String sep EmptyString /\
  s = before +:+ mid +:+ after /\
  occurs sep before = false.
Proof.
  intros Hocc. unfold partition.
  destruct (split_first sep s) as [[b a]|] eqn:Hs.
  - apply split_first_some in Hs as [-> Hb]. auto.
  - apply split_first_none in Hs. congruence.
Qed.

Lemma partition_not_found (s : string) (sep : ascii) :
  occurs sep s = false ->
  partition s sep = (s, EmptyString, EmptyString).
Proof.
  intros Hocc. unfold partition.
  apply split_first_none in Hocc. rewrite Hocc. reflexivity.
Qed.

Lemma embeds_between (pre needle post : string) :
  embeds needle (pre +:+ needle +:+ post).
Proof. exists pre, post. reflexivity. Qed.

Lemma append_assoc (a b c : string) : (a +:+ b) +:+ c = a +:+ b +:+ c.
Proof.
  induction a as [|ch a IH]; [reflexivity|].
  change (String ch ((a +:+ b) +:+ c) = String ch (a +:+ b +:+ c)).
  f_equal. exact IH.
Qed.

Lemma embeds_head (needle post : string) : embeds needle (needle +:+ post).
Proof. exists EmptyString, post. reflexivity. Qed.

Lemma embeds_app_r (needle pre hay : string) :
  embeds needle hay -> embeds needle (pre +:+ hay).
Proof.
  unfold embeds. intros (a & b & ->).
  exists (pre +:+ a), b. symmetry. apply append_assoc.
Qed.

(** The message is a concatenation one of whose pieces is the needle. *)
Ltac solve_embeds :=
  repeat first [apply embeds_head | apply embeds_app_r].

Lemma truthy_tuple (xs : list pyobj) :
  truthy (PyTuple xs) = false <-> xs = [].
Proof. destruct xs; simpl; split; congruence. Qed.

Lemma py_in_true (x : pyobj) (xs : list pyobj) : py_in x xs = true <-> x ∈ xs.
Proof. unfold py_in. apply bool_decide_eq_true. Qed.

Lemma py_in_false (x : pyobj) (xs : list pyobj) :
  py_in x xs = false <-> x ∉ xs.
Proof. unfold py_in. apply bool_decide_eq_false. Qed.

Lemma is_None_true (o : pyobj) : is_None o = true <-> o = PyNone.
Proof. destruct o; simpl; split; congruence. Qed.

Lemma is_None_false (o : pyobj) : is_None o = false <-> o <> PyNone.
Proof. destruct o; simpl; split; congruence. Qed.

Lemma py_attr_None (name : string) : py_attr PyNone name = None.
Proof. reflexivity. Qed.

(** A cache that only holds outcomes of [f] answers as [f] does, and stays
    such a cache. *)
Lemma callable_cached_transparent {R : Type} (f : pyobj -> R)
    (cache : list (pyobj * R)) (hint : pyobj) :
  cache_coherent f cache ->
  fst (callable_cached f cache hint) = f hint /\
  cache_coherent f (snd (callable_cached f cache hint)).
Proof.
  intros Hc. unfold callable_cached.
  destruct (cache_lookup hint cache) as [r|] eqn:Hl; simpl.
  - split; [|exact Hc].
    induction Hc as [|[k r'] rest Hk Hrest IH]; simpl in Hl; [discriminate|].
    case_bool_decide; simpl in *.
    + injection Hl as <-. subst k. exact Hk.
    + apply IH. exact Hl.
  - split; [reflexivity|]. constructor; [reflexivity|exact Hc].
Qed.

(** The empty cache is coherent, so the first call runs the function. *)
Lemma callable_cached_first_call {R : Type} (f : pyobj -> R) (hint : pyobj) :
  callable_cached f [] hint = (f hint, [(hint, f hint)]).
Proof. reflexivity. Qed.

(** A second call with the same hint returns what the first one did. *)
Lemma callable_cached_again {R : Type} (f : pyobj -> R)
    (cache : list (pyobj * R)) (hint : pyobj) :
  let '(r, cache') := callable_cached f cache hint in
  callable_cached f cache' hint = (r, cache').
Proof.
  unfold callable_cached.
  destruct (cache_lookup hint cache) as [r|] eqn:Hl.
  - rewrite Hl. reflexivity.
  - simpl. rewrite bool_decide_eq_true_2 by reflexivity. reflexivity.
Qed.

Lemma is_hint_pep484_typevar_ignorable_true (hint : pyobj) :
  is_hint_pep484_typevar_ignorable hint = true.
Proof. reflexivity. Qed.

(* ------------------------------------------------------------------ *)
(** ** The sign classifier *)

(** C1. For every hint that passes [die_unless_hint_pep], is not [None]
    and is accepted by [is_hint_pep_generic], be it a generic class or a
    subscription of one, [get_hint_pep_sign] returns [typing.Generic].
    Nothing is assumed about the later tests ([is_hint_pep585_builtin],
    the bare-class test, the representation), so the generic branch wins
    over all of them, and a generic and its subscriptions get the same
    sign. *)
Theorem get_hint_pep_sign_generic (host : Host) (hint : pyobj) :
  die_unless_hint_pep host hint = Return tt ->
  hint <> PyNone ->
  is_hint_pep_generic host hint = true ->
  get_hint_pep_sign host hint = Return (Generic host).
Proof.
  intros Hvalid Hnone Hgen.
  unfold get_hint_pep_sign. rewrite Hvalid. run.
  apply is_None_false in Hnone. rewrite Hnone, Hgen. reflexivity.
Qed.

Lemma get_hint_pep_sign_generic_witness :
  get_hint_pep_sign py39 World.MuhGeneric = Return World.Generic /\
  get_hint_pep_sign py39 World.MuhGeneric_int = Return World.Generic.
Proof.
  split.
  - apply (get_hint_pep_sign_generic py39 World.MuhGeneric);
      [reflexivity | discriminate | reflexivity].
  - apply (get_hint_pep_sign_generic py39 World.MuhGeneric_int);
      [reflexivity | discriminate | reflexivity].
Defined.

(** C3. For every hint that passes [die_unless_hint_pep], is not a
    generic and is accepted by [is_hint_pep585_builtin], [get_hint_pep_sign]
    returns the value [t] of the hint's [__origin__] attribute. *)
Theorem get_hint_pep_sign_pep585_builtin (host : Host) (hint t : pyobj) :
  die_unless_hint_pep host hint = Return tt ->
  is_hint_pep_generic host hint = false ->
  is_hint_pep585_builtin host hint = true ->
  py_attr hint "__origin__" = Some t ->
  get_hint_pep_sign host hint = Return t.
Proof.
  intros Hvalid Hgen H585 Horigin.
  unfold get_hint_pep_sign. rewrite Hvalid. run.
  destruct (is_None hint) eqn:Hnone.
  - apply is_None_true in Hnone. subst hint. discriminate.
  - rewrite Hgen, H585. unfold getattr_strict. rewrite Horigin. reflexivity.
Qed.

Lemma get_hint_pep_sign_pep585_builtin_witness :
  get_hint_pep_sign py39 World.list_int = Return World.list_.
Proof.
  apply (get_hint_pep_sign_pep585_builtin py39 World.list_int World.list_);
    reflexivity.
Defined.

(** C4. For every hint that passes [die_unless_hint_pep], is matched by
    neither the generic nor the PEP 585 branch, is a class and has neither
    type arguments nor type variables, [get_hint_pep_sign] returns the
    class itself when it is in [HINT_PEP_SIGNS_TYPE] and raises
    [BeartypeDecorHintPepSignException], with the class's representation
    in the message, when it is not; so it returns the class if and only if
    the class is in that set. *)
Theorem get_hint_pep_sign_bare_class (host : Host) (hint typevars : pyobj) :
  die_unless_hint_pep host hint = Return tt ->
  is_hint_pep_generic host hint = false ->
  is_hint_pep585_builtin host hint = false ->
  isinstance_type hint = true ->
  truthy (get_hint_pep_args host hint) = false ->
  get_hint_pep_typevars host hint = Return typevars ->
  truthy typevars = false ->
  (hint ∈ HINT_PEP_SIGNS_TYPE host ->
   get_hint_pep_sign host hint = Return hint) /\
  (hint ∉ HINT_PEP_SIGNS_TYPE host ->
   exists msg,
     get_hint_pep_sign host hint =
       Raise (mk_exn BeartypeDecorHintPepSignException msg) /\
     embeds (repr hint) msg) /\
  (get_hint_pep_sign host hint = Return hint <->
   hint ∈ HINT_PEP_SIGNS_TYPE host).
Proof.
  intros Hvalid Hgen H585 Hcls Hargs Htv Hfalsy.
  assert (Hsign : get_hint_pep_sign host hint =
    if negb (py_in hint (HINT_PEP_SIGNS_TYPE host)) then
      Raise (mk_exn BeartypeDecorHintPepSignException
        ("Unsubscripted non-generic class " +:+ repr hint +:+
         " invalid as sign (i.e., not in " +:+
         repr_frozenset (HINT_PEP_SIGNS_TYPE host) +:+ ")."))
    else Return hint).
  { unfold get_hint_pep_sign, is_class_unsubscripted.
    rewrite Hvalid. run.
    destruct hint as [| | | |k r attrs]; try discriminate. simpl.
    rewrite Hgen, H585. simpl in Hcls. rewrite Hcls, Hargs, Htv, Hfalsy.
    reflexivity. }
  rewrite Hsign.
  destruct (py_in hint (HINT_PEP_SIGNS_TYPE host)) eqn:Hin; simpl.
  - apply py_in_true in Hin. repeat split; auto. contradiction.
  - apply py_in_false in Hin. repeat split; try contradiction.
    + intros _. eexists. split; [reflexivity|]. apply embeds_between.
    + discriminate.
Qed.

Lemma get_hint_pep_sign_bare_class_witness :
  (get_hint_pep_sign py39 World.TypeVar = Return World.TypeVar <->
   World.TypeVar ∈ HINT_PEP_SIGNS_TYPE py39) /\
  (get_hint_pep_sign py39 World.SupportsInt = Return World.SupportsInt <->
   World.SupportsInt ∈ HINT_PEP_SIGNS_TYPE py39).
Proof.
  split.
  - apply (get_hint_pep_sign_bare_class py39 World.TypeVar (PyTuple []));
      reflexivity.
  - apply (get_hint_pep_sign_bare_class py39 World.SupportsInt (PyTuple []));
      reflexivity.
Defined.

(** C2, the claim as stated, fails on Python 3.6: for the type alias
    [typing.Pattern[str]] none of the listed structural branches matches
    and the module name of its representation, [Pattern[str]], is not a
    hinting module, yet [get_hint_pep_sign] raises nothing: the type
    alias branch returns the [typing] attribute named by the alias. *)
Lemma get_hint_pep_sign_type_alias_not_from_repr :
  structural_branches_miss py36 World.Pattern_str /\
  (repr_module_name World.Pattern_str ∉ HINT_PEP_MODULE_NAMES py36) /\
  get_hint_pep_sign py36 World.Pattern_str = Return World.Pattern /\
  (get_hint_pep_sign py36 World.Pattern_str <>
   get_hint_pep_sign_from_repr py36 World.Pattern_str).
Proof.
  split; [|split; [|split]].
  - repeat split; try reflexivity. discriminate.
  - apply (bool_decide_unpack _). vm_compute. exact I.
  - reflexivity.
  - vm_compute. discriminate.
Qed.

(** C2, amended. For every hint that passes [die_unless_hint_pep], is
    matched by none of the structural branches and is not a type alias
    seen by Python 3.6, [get_hint_pep_sign] reads the sign off the
    representation. When the module name before the first dot is not in
    [HINT_PEP_MODULE_NAMES] it raises [BeartypeDecorHintPepSignException]
    with the representation in the message. Otherwise it imports that
    module, an importer failure propagating as it is, and looks up the
    corrected attribute name: an attribute that exists and is not [None]
    is returned, a missing (or [None]) one raises
    [BeartypeDecorHintPepSignException], the message holding the
    representation and the attribute name. *)
Theorem get_hint_pep_sign_from_repr_correct (host : Host) (hint : pyobj) :
  structural_branches_miss host hint ->
  IS_PYTHON_3_6 host && isinstance_TypeAlias hint = false ->
  (repr_module_name hint ∉ HINT_PEP_MODULE_NAMES host ->
   exists msg,
     get_hint_pep_sign host hint =
       Raise (mk_exn BeartypeDecorHintPepSignException msg) /\
     embeds (repr hint) msg) /\
  (repr_module_name hint ∈ HINT_PEP_MODULE_NAMES host ->
   (forall e,
      import_module host (repr_module_name hint)
        BeartypeDecorHintPepSignException = Raise e ->
      get_hint_pep_sign host hint = Raise e) /\
   (forall hint_module,
      import_module host (repr_module_name hint)
        BeartypeDecorHintPepSignException = Return hint_module ->
      (forall sign,
         py_attr hint_module (repr_sign_name hint) = Some sign ->
         sign <> PyNone ->
         get_hint_pep_sign host hint = Return sign) /\
      (py_attr hint_module (repr_sign_name hint) = None \/
       py_attr hint_module (repr_sign_name hint) = Some PyNone ->
       exists msg,
         get_hint_pep_sign host hint =
           Raise (mk_exn BeartypeDecorHintPepSignException msg) /\
         embeds (repr hint) msg /\
         embeds (repr_sign_name hint) msg))).
Proof.
  intros (Hvalid & Hnone & Hgen & H585 & Hstd & Hfwd & Hnew & Htv) Halias.
  assert (Htail : get_hint_pep_sign host hint =
                  get_hint_pep_sign_from_repr host hint).
  { unfold get_hint_pep_sign. rewrite Hvalid. run.
    apply is_None_false in Hnone.
    rewrite Hnone, Hgen, H585, Hstd, Hfwd, Hnew, Htv, Halias. reflexivity. }
  rewrite Htail. clear Htail.
  unfold get_hint_pep_sign_from_repr, repr_module_name, repr_sign_name.
  destruct (partition (repr hint) ".") as [[module_name sep] attr_name].
  simpl.
  destruct (partition attr_name "[") as [[sign_name sep'] rest].
  simpl. split.
  - intros Hout. rewrite bool_decide_eq_true_2 by exact Hout.
    eexists. split; [reflexivity|]. apply embeds_between.
  - intros Hin. rewrite bool_decide_eq_false_2 by (intros Hno; exact (Hno Hin)).
    split.
    + intros e ->. reflexivity.
    + intros hint_module ->. run. unfold getattr_default. split.
      * intros sign -> Hsign. simpl.
        apply is_None_false in Hsign. rewrite Hsign. reflexivity.
      * intros [-> | ->]; simpl;
          (eexists; split; [reflexivity|]; split; solve_embeds).
Qed.

Lemma get_hint_pep_sign_from_repr_correct_witness :
  get_hint_pep_sign py39 World.Union_int_str = Return World.Union /\
  get_hint_pep_sign py39 World.ContextManager = Return World.ContextManager.
Proof.
  split.
  - refine (proj1 (proj2 (proj2
      (get_hint_pep_sign_from_repr_correct py39 World.Union_int_str _ _) _)
      World.typing _) World.Union _ _).
    + repeat split; try reflexivity. discriminate.
    + reflexivity.
    + apply (bool_decide_unpack _). vm_compute. exact I.
    + reflexivity.
    + reflexivity.
    + discriminate.
  - refine (proj1 (proj2 (proj2
      (get_hint_pep_sign_from_repr_correct py39 World.ContextManager _ _) _)
      World.typing _) World.ContextManager _ _).
    + repeat split; try reflexivity. discriminate.
    + reflexivity.
    + apply (bool_decide_unpack _). vm_compute. exact I.
    + reflexivity.
    + reflexivity.
    + discriminate.
Defined.

(* ------------------------------------------------------------------ *)
(** ** The structural accessors *)

(** C5. [get_hint_pep_generic_bases_unerased] returns only what the
    extractor of the hint's category returned, and only when that has at
    least one item; it raises what the extractor raised, and when the
    extractor returned the empty tuple it raises
    [BeartypeDecorHintPepException], naming the hint, instead of returning
    the empty tuple. So when the extractors raise nothing but
    [BeartypeDecorHintPepException], as the function's comment says of
    them, every failure of the accessor is of that class. *)
Theorem get_hint_pep_generic_bases_unerased_nonempty
    (host : Host) (hint : pyobj) :
  match get_hint_pep_generic_bases_unerased host hint with
  | Return bases =>
      1 <= length bases /\ extracted_bases host hint = Return bases
  | Raise e =>
      extracted_bases host hint = Raise e \/
      (extracted_bases host hint = Return [] /\
       exn_cls e = BeartypeDecorHintPepException /\
       embeds (repr hint) (exn_msg e))
  end /\
  (extracted_bases host hint = Return [] ->
   raises_cls BeartypeDecorHintPepException
     (get_hint_pep_generic_bases_unerased host hint)) /\
  ((forall e, extracted_bases host hint = Raise e ->
              exn_cls e = BeartypeDecorHintPepException) ->
   forall e, get_hint_pep_generic_bases_unerased host hint = Raise e ->
             exn_cls e = BeartypeDecorHintPepException).
Proof.
  unfold get_hint_pep_generic_bases_unerased.
  fold (extracted_bases host hint).
  destruct (extracted_bases host hint) as [bases|e0]; run.
  - destruct bases as [|b bases]; simpl.
    + split; [|split].
      * right. repeat split. solve_embeds.
      * reflexivity.
      * intros _ e [= <-]. reflexivity.
    + split; [|split].
      * split; [lia|reflexivity].
      * discriminate.
      * discriminate.
  - split; [|split].
    + left. reflexivity.
    + discriminate.
    + intros H e [= <-]. apply H. reflexivity.
Qed.

Lemma get_hint_pep_generic_bases_unerased_nonempty_witness :
  raises_cls BeartypeDecorHintPepException
    (get_hint_pep_generic_bases_unerased py39 World.Baseless).
Proof.
  apply (proj1 (proj2
    (get_hint_pep_generic_bases_unerased_nonempty py39 World.Baseless))).
  reflexivity.
Defined.

(** C6, the claim as stated, fails twice. On Python >= 3.7 a hint whose
    [__args__] is [None] gets [None] back, not the empty tuple. On Python
    3.6 the type alias [typing.Pattern[str]] has no [__args__] attribute
    and gets the 1-tuple [(str,)]. *)
Lemma get_hint_pep_args_not_always_empty :
  (IS_PYTHON_AT_LEAST_3_7 py39 = true /\
   py_attr World.Legacy "__args__" = Some PyNone /\
   get_hint_pep_args py39 World.Legacy = PyNone /\
   get_hint_pep_args py39 World.Legacy <> PyTuple []) /\
  (IS_PYTHON_AT_LEAST_3_7 py36 = false /\
   py_attr World.Pattern_str "__args__" = None /\
   get_hint_pep_args py36 World.Pattern_str = PyTuple [World.str] /\
   get_hint_pep_args py36 World.Pattern_str <> PyTuple []).
Proof. repeat split; try reflexivity; discriminate. Qed.

(** C6, amended. On Python >= 3.7 [get_hint_pep_args] returns the empty
    tuple for a hint without [__args__] and the value of [__args__], as it
    is, for a hint with one, hence [None] when that is [None]. On Python
    3.6 it returns the empty tuple for a hint that is not a type alias
    and whose [__args__] is missing or [None]; for a type alias it returns
    the empty tuple when the alias's [type_var] is a type variable and the
    1-tuple of [type_var] otherwise. *)
Theorem get_hint_pep_args_absent_or_None (host : Host) (hint : pyobj) :
  (IS_PYTHON_AT_LEAST_3_7 host = true ->
   (py_attr hint "__args__" = None ->
    get_hint_pep_args host hint = PyTuple []) /\
   (forall v, py_attr hint "__args__" = Some v ->
              get_hint_pep_args host hint = v)) /\
  (IS_PYTHON_AT_LEAST_3_7 host = false ->
   isinstance_TypeAlias hint = false ->
   (py_attr hint "__args__" = None ->
    get_hint_pep_args host hint = PyTuple []) /\
   (py_attr hint "__args__" = Some PyNone ->
    get_hint_pep_args host hint = PyTuple [])) /\
  (IS_PYTHON_AT_LEAST_3_7 host = false ->
   forall name type_var impl_type,
     hint = PyTypeAlias name type_var impl_type ->
     get_hint_pep_args host hint =
       if is_hint_pep_typevar host type_var then PyTuple []
       else PyTuple [type_var]).
Proof.
  unfold get_hint_pep_args, getattr_default.
  split; [|split].
  - intros ->. split.
    + intros ->. reflexivity.
    + intros v ->. reflexivity.
  - intros -> Halias.
    destruct hint; try discriminate; simpl; split; intros H;
      try rewrite H; try reflexivity; discriminate.
  - intros -> name type_var impl_type ->. reflexivity.
Qed.

Lemma get_hint_pep_args_absent_or_None_witness :
  get_hint_pep_args py39 World.Any = PyTuple [] /\
  get_hint_pep_args py39 World.Legacy = PyNone /\
  get_hint_pep_args py36 World.Any = PyTuple [] /\
  get_hint_pep_args py36 World.Tuple36 = PyTuple [] /\
  get_hint_pep_args py36 World.Pattern_str = PyTuple [World.str].
Proof.
  split; [|split; [|split; [|split]]].
  - exact (proj1 (proj1
      (get_hint_pep_args_absent_or_None py39 World.Any) eq_refl) eq_refl).
  - exact (proj2 (proj1
      (get_hint_pep_args_absent_or_None py39 World.Legacy) eq_refl)
      PyNone eq_refl).
  - exact (proj1 (proj1 (proj2
      (get_hint_pep_args_absent_or_None py36 World.Any)) eq_refl eq_refl)
      eq_refl).
  - exact (proj2 (proj1 (proj2
      (get_hint_pep_args_absent_or_None py36 World.Tuple36)) eq_refl eq_refl)
      eq_refl).
  - exact (proj2 (proj2
      (get_hint_pep_args_absent_or_None py36 World.Pattern_str)) eq_refl
      _ _ _ eq_refl).
Defined.

(** C10. [get_hint_pep_generic_type_or_none] is total: it returns the
    origin object of the hint when that is a class, whether or not the
    hint is a class too; else the hint when the hint is a class; else
    [None]. What it returns is a class or [None], and it does return a
    class for hints that are no generics, such as [typing.List[int]]. *)
Theorem get_hint_pep_generic_type_or_none_correct
    (host : Host) (hint : pyobj) :
  let hint_origin := _get_hint_pep_origin_object_or_none host hint in
  let hint_type := get_hint_pep_generic_type_or_none host hint in
  (isinstance_type hint_origin = true -> hint_type = hint_origin) /\
  (isinstance_type hint_origin = false -> isinstance_type hint = true ->
   hint_type = hint) /\
  (isinstance_type hint_origin = false -> isinstance_type hint = false ->
   hint_type = PyNone) /\
  (hint_type = PyNone \/ isinstance_type hint_type = true) /\
  (exists h,
     is_hint_pep_generic py39 h = false /\
     isinstance_type (get_hint_pep_generic_type_or_none py39 h) = true).
Proof.
  simpl. unfold get_hint_pep_generic_type_or_none.
  destruct (isinstance_type (_get_hint_pep_origin_object_or_none host hint))
    eqn:Horigin; [|destruct (isinstance_type hint) eqn:Hhint];
    repeat split; auto; try discriminate.
  all: exists World.List_int; split; reflexivity.
Qed.

Lemma get_hint_pep_generic_type_or_none_correct_witness :
  get_hint_pep_generic_type_or_none py39 World.MuhGeneric_int =
    World.MuhGeneric /\
  get_hint_pep_generic_type_or_none py39 World.MuhGeneric = World.MuhGeneric /\
  get_hint_pep_generic_type_or_none py39 World.Any = PyNone.
Proof.
  split; [|split].
  - apply (proj1
      (get_hint_pep_generic_type_or_none_correct py39 World.MuhGeneric_int)).
    reflexivity.
  - apply (proj1 (proj2
      (get_hint_pep_generic_type_or_none_correct py39 World.MuhGeneric)));
      reflexivity.
  - apply (proj1 (proj2 (proj2
      (get_hint_pep_generic_type_or_none_correct py39 World.Any))));
      reflexivity.
Defined.

(* ------------------------------------------------------------------ *)
(** ** The standard library origin type *)

(** C8, the claim as stated, fails at a hint the sign classifier
    rejects. For the plain class [int], which [die_unless_hint_pep]
    refuses, [get_hint_pep_stdlib_type_or_none] does not return [None]: it
    raises; and [get_hint_pep_stdlib_type] raises
    [BeartypeDecorHintPepException] although the non-strict getter did not
    yield [None]. *)
Lemma get_hint_pep_stdlib_type_raises_without_None :
  raises (get_hint_pep_stdlib_type_or_none py39 World.int) /\
  get_hint_pep_stdlib_type_or_none py39 World.int <> Return PyNone /\
  raises_cls BeartypeDecorHintPepException
    (get_hint_pep_stdlib_type py39 World.int).
Proof.
  split; [|split].
  - vm_compute. exact I.
  - vm_compute. discriminate.
  - vm_compute. reflexivity.
Qed.

(** C8, amended. When [get_hint_pep_sign] returns a sign,
    [get_hint_pep_stdlib_type_or_none] returns what
    [_get_hint_pep_origin_object_or_none] returns, as it is and without
    any check that it is a class, if that sign is in
    [HINT_PEP_SIGNS_TYPE_ORIGIN_STDLIB], and [None] if it is not; when the
    sign classifier raises, both getters raise that exception.
    [get_hint_pep_stdlib_type] returns the object the non-strict getter
    returns when that is not [None], raises its own
    [BeartypeDecorHintPepException], naming the hint, when that is
    [None], and raises what the non-strict getter raises. So the strict
    getter raises exactly when the non-strict one returns [None] or
    raises, and each of its failures is one of these two. *)
Theorem get_hint_pep_stdlib_type_correct (host : Host) (hint : pyobj) :
  (forall sign,
     get_hint_pep_sign host hint = Return sign ->
     (sign ∈ HINT_PEP_SIGNS_TYPE_ORIGIN_STDLIB host ->
      get_hint_pep_stdlib_type_or_none host hint =
        Return (_get_hint_pep_origin_object_or_none host hint)) /\
     (sign ∉ HINT_PEP_SIGNS_TYPE_ORIGIN_STDLIB host ->
      get_hint_pep_stdlib_type_or_none host hint = Return PyNone)) /\
  (forall e,
     get_hint_pep_sign host hint = Raise e ->
     get_hint_pep_stdlib_type_or_none host hint = Raise e /\
     get_hint_pep_stdlib_type host hint = Raise e) /\
  (forall origin,
     get_hint_pep_stdlib_type_or_none host hint = Return origin ->
     origin <> PyNone ->
     get_hint_pep_stdlib_type host hint = Return origin) /\
  (get_hint_pep_stdlib_type_or_none host hint = Return PyNone ->
   exists msg,
     get_hint_pep_stdlib_type host hint =
       Raise (mk_exn BeartypeDecorHintPepException msg) /\
     embeds (repr hint) msg) /\
  (forall e,
     get_hint_pep_stdlib_type_or_none host hint = Raise e ->
     get_hint_pep_stdlib_type host hint = Raise e) /\
  (raises (get_hint_pep_stdlib_type host hint) <->
   get_hint_pep_stdlib_type_or_none host hint = Return PyNone \/
   raises (get_hint_pep_stdlib_type_or_none host hint)) /\
  (forall e,
     get_hint_pep_stdlib_type host hint = Raise e ->
     (get_hint_pep_stdlib_type_or_none host hint = Return PyNone /\
      exn_cls e = BeartypeDecorHintPepException /\
      embeds (repr hint) (exn_msg e)) \/
     (get_hint_pep_stdlib_type_or_none host hint = Raise e /\
      get_hint_pep_sign host hint = Raise e)).
Proof.
  unfold get_hint_pep_stdlib_type.
  split; [|split; [|split; [|split; [|split; [|split]]]]].
  - intros sign Hsign. unfold get_hint_pep_stdlib_type_or_none.
    rewrite Hsign. run. split; intros Hin.
    + apply py_in_true in Hin. rewrite Hin. reflexivity.
    + apply py_in_false in Hin. rewrite Hin. reflexivity.
  - intros e Hsign. unfold get_hint_pep_stdlib_type_or_none.
    rewrite Hsign. split; reflexivity.
  - intros origin -> Hsome. run.
    apply is_None_false in Hsome. rewrite Hsome. reflexivity.
  - intros ->. run. eexists. split; [reflexivity|]. solve_embeds.
  - intros e ->. reflexivity.
  - destruct (get_hint_pep_stdlib_type_or_none host hint) as [origin|e]; run.
    + destruct (is_None origin) eqn:Hnone; simpl.
      * apply is_None_true in Hnone. subst origin. split; auto.
      * apply is_None_false in Hnone. split; [contradiction|].
        intros [[= Horigin] | []]. contradiction.
    + split; auto.
  - intros e. unfold get_hint_pep_stdlib_type_or_none.
    destruct (get_hint_pep_sign host hint) as [sign|e0]; run.
    + destruct (is_None _) eqn:Hnone; [|discriminate].
      apply is_None_true in Hnone. rewrite Hnone.
      intros [= <-]. left. split; [reflexivity|]. split; [reflexivity|].
      simpl. solve_embeds.
    + intros [= ->]. right. split; reflexivity.
Qed.

Lemma get_hint_pep_stdlib_type_correct_witness :
  get_hint_pep_stdlib_type_or_none py39 World.list_int = Return World.list_ /\
  get_hint_pep_stdlib_type py39 World.list_int = Return World.list_ /\
  get_hint_pep_stdlib_type_or_none py39 World.Any = Return PyNone /\
  raises (get_hint_pep_stdlib_type py39 World.Any) /\
  raises (get_hint_pep_stdlib_type py39 World.int).
Proof.
  pose proof (get_hint_pep_stdlib_type_correct py39 World.list_int)
    as (Hsign & _ & Hstrict & _).
  pose proof (get_hint_pep_stdlib_type_correct py39 World.Any)
    as (Hsign' & _ & _ & _ & _ & Hraises & _).
  pose proof (get_hint_pep_stdlib_type_correct py39 World.int)
    as (_ & _ & _ & _ & _ & Hraises' & _).
  split; [|split; [|split; [|split]]].
  - refine (proj1 (Hsign World.list_ eq_refl) _).
    apply (bool_decide_unpack _). vm_compute. exact I.
  - refine (Hstrict World.list_ eq_refl _). discriminate.
  - refine (proj2 (Hsign' World.Any eq_refl) _).
    apply (bool_decide_unpack _). vm_compute. exact I.
  - exact (proj2 Hraises (or_introl eq_refl)).
  - exact (proj2 Hraises' (or_intror I)).
Defined.

(* ------------------------------------------------------------------ *)
(** ** The PEP 484 reducers *)

(** C7. Called with a string as [exception_prefix],
    [reduce_hint_pep484_deprecated] returns the hint it was passed and
    raises nothing. When the representation of the hint up to its first
    bracket is in [HINTS_PEP484_REPR_PREFIX_DEPRECATED] it emits one
    [BeartypeDecorHintPep585DeprecationWarning] whose message names the
    hint; when it is not, it emits nothing. So the log of warnings grows
    by exactly one if and only if that prefix is in the deprecated set. *)
Theorem reduce_hint_pep484_deprecated_correct
    (host : Host) (hint : pyobj) (prefix : string)
    (args : list pyobj) (kwargs : list (string * pyobj))
    (log : list warning) :
  let out :=
    reduce_hint_pep484_deprecated host hint (PyStr prefix) args kwargs log in
  out.1 = Return hint /\
  (repr_bare host hint ∈ HINTS_PEP484_REPR_PREFIX_DEPRECATED host ->
   exists w,
     out.2 = log ++ [w] /\
     warning_cls w = BeartypeDecorHintPep585DeprecationWarning /\
     embeds (repr hint) (warning_msg w)) /\
  (repr_bare host hint ∉ HINTS_PEP484_REPR_PREFIX_DEPRECATED host ->
   out.2 = log) /\
  (length out.2 = S (length log) <->
   repr_bare host hint ∈ HINTS_PEP484_REPR_PREFIX_DEPRECATED host).
Proof.
  unfold reduce_hint_pep484_deprecated, repr_bare. simpl.
  destruct (partition (get_hint_repr host hint) "[") as [[bare sep] rest].
  simpl. case_bool_decide as Hin; simpl.
  - split; [reflexivity|]. split; [|split].
    + intros _. eexists. split; [reflexivity|]. split; [reflexivity|].
      simpl. solve_embeds.
    + intros Hout. contradiction.
    + unfold issue_warning. rewrite length_app. simpl.
      split; [intros _; exact Hin | intros _; lia].
  - split; [reflexivity|]. split; [|split].
    + intros Hin'. contradiction.
    + reflexivity.
    + split; [lia | intros Hin'; contradiction].
Qed.

Lemma reduce_hint_pep484_deprecated_correct_witness :
  (reduce_hint_pep484_deprecated py39 World.List_int (PyStr EmptyString) [] [] []).1
    = Return World.List_int /\
  length
    (reduce_hint_pep484_deprecated py39 World.List_int (PyStr EmptyString) [] [] []).2
    = 1 /\
  (reduce_hint_pep484_deprecated py39 World.Union_int_str
     (PyStr EmptyString) [] [] []).2 = [].
Proof.
  pose proof (reduce_hint_pep484_deprecated_correct
                py39 World.List_int EmptyString [] [] []) as (Hret & _ & _ & Hone).
  pose proof (reduce_hint_pep484_deprecated_correct
                py39 World.Union_int_str EmptyString [] [] []) as (_ & _ & Hnone & _).
  split; [exact Hret|]. split.
  - apply (proj2 Hone). apply (bool_decide_unpack _). vm_compute. exact I.
  - apply Hnone. apply (bool_decide_unpack _). vm_compute. exact I.
Defined.

(** The assertion on [exception_prefix]: anything but a string raises
    [AssertionError] and emits nothing. *)
Lemma reduce_hint_pep484_deprecated_prefix_not_str
    (host : Host) (hint exception_prefix : pyobj)
    (args : list pyobj) (kwargs : list (string * pyobj))
    (log : list warning) :
  isinstance_str exception_prefix = false ->
  exists msg,
    reduce_hint_pep484_deprecated host hint exception_prefix args kwargs log
    = (Raise (mk_exn AssertionError msg), log).
Proof.
  intros Hstr. unfold reduce_hint_pep484_deprecated, py_assert.
  rewrite Hstr. eexists. reflexivity.
Qed.

(** C9. [reduce_hint_pep484_none] returns [NoneType] for the [None]
    singleton, whatever else it is passed, and raises [AssertionError] for
    every other hint. *)
Theorem reduce_hint_pep484_none_correct
    (host : Host) (args : list pyobj) (kwargs : list (string * pyobj)) :
  reduce_hint_pep484_none host PyNone args kwargs = Return (NoneType host) /\
  (forall hint,
     hint <> PyNone ->
     raises_cls AssertionError
       (reduce_hint_pep484_none host hint args kwargs)).
Proof.
  split; [reflexivity|].
  intros hint Hnone. unfold reduce_hint_pep484_none, py_assert.
  apply is_None_false in Hnone. rewrite Hnone. reflexivity.
Qed.

Lemma reduce_hint_pep484_none_correct_witness :
  reduce_hint_pep484_none py39 PyNone [] [] = Return World.NoneType /\
  raises_cls AssertionError (reduce_hint_pep484_none py39 World.int [] []).
Proof.
  split.
  - exact (proj1 (reduce_hint_pep484_none_correct py39 [] [])).
  - refine (proj2 (reduce_hint_pep484_none_correct py39 [] []) World.int _).
    discriminate.
Defined.

(* ------------------------------------------------------------------ *)
(** ** Further properties of the sign classifier *)

Lemma split_first_app (sep : ascii) (before after : string) :
  occurs sep before = false ->
  split_first sep (before +:+ String sep after) = Some (before, after).
Proof.
  induction before as [|c rest IH]; simpl.
  - intros _. rewrite Ascii.eqb_refl. reflexivity.
  - intros Hocc. apply orb_false_elim in Hocc as [Hc Hrest].
    rewrite Hc, (IH Hrest). reflexivity.
Qed.

(** [partition] undoes a concatenation around a separator that the first
    part does not contain. *)
Lemma partition_app (sep : ascii) (before after : string) :
  occurs sep before = false ->
  partition (before +:+ String sep after) sep =
    (before, String sep EmptyString, after).
Proof.
  intros Hocc. unfold partition. rewrite split_first_app by exact Hocc.
  reflexivity.
Qed.

(** Under the hypotheses of the fallback, the classifier is its tail. *)
Lemma get_hint_pep_sign_falls_back (host : Host) (hint : pyobj) :
  structural_branches_miss host hint ->
  IS_PYTHON_3_6 host && isinstance_TypeAlias hint = false ->
  get_hint_pep_sign host hint = get_hint_pep_sign_from_repr host hint.
Proof.
  intros (Hvalid & Hnone & Hgen & H585 & Hstd & Hfwd & Hnew & Htv) Halias.
  unfold get_hint_pep_sign. rewrite Hvalid. run.
  apply is_None_false in Hnone.
  rewrite Hnone, Hgen, H585, Hstd, Hfwd, Hnew, Htv, Halias. reflexivity.
Qed.

(** The tail of the classifier in terms of the two names it reads off the
    representation. *)
Lemma get_hint_pep_sign_from_repr_names (host : Host) (hint : pyobj) :
  get_hint_pep_sign_from_repr host hint =
  if bool_decide (repr_module_name hint ∉ HINT_PEP_MODULE_NAMES host) then
    Raise (mk_exn BeartypeDecorHintPepSignException
      ("Type hint " +:+ repr hint +:+ " representation " +:+ dquote +:+
       repr hint +:+ dquote +:+ " not prefixed by " +:+ dquote +:+
       "typing." +:+ dquote +:+ " or " +:+ dquote +:+
       "typing_extensions." +:+ dquote +:+ "."))
  else
    hint_module ←
      import_module host (repr_module_name hint)
        BeartypeDecorHintPepSignException;
    let sign := getattr_default hint_module (repr_sign_name hint) PyNone in
    if is_None sign then
      Raise (mk_exn BeartypeDecorHintPepSignException
        ("Type hint " +:+ repr hint +:+ " attribute " +:+ dquote +:+
         "typing." +:+ repr_sign_name hint +:+ dquote +:+ " not found."))
    else Return sign.
Proof.
  unfold get_hint_pep_sign_from_repr, repr_module_name, repr_sign_name.
  destruct (partition (repr hint) ".") as [[module_name sep] attr_name].
  simpl.
  destruct (partition attr_name "[") as [[sign_name sep'] rest].
  reflexivity.
Qed.

(** X1. A hint that [die_unless_hint_pep] rejects is rejected with that
    very exception by the classifier and by both origin-type getters:
    validation comes first and no later test can mask it. *)
Theorem invalid_hint_propagates (host : Host) (hint : pyobj) (e : exn) :
  die_unless_hint_pep host hint = Raise e ->
  get_hint_pep_sign host hint = Raise e /\
  get_hint_pep_stdlib_type_or_none host hint = Raise e /\
  get_hint_pep_stdlib_type host hint = Raise e.
Proof.
  intros Hinvalid.
  assert (Hsign : get_hint_pep_sign host hint = Raise e).
  { unfold get_hint_pep_sign. rewrite Hinvalid. reflexivity. }
  unfold get_hint_pep_stdlib_type, get_hint_pep_stdlib_type_or_none.
  rewrite Hsign. repeat split.
Qed.

Lemma invalid_hint_propagates_witness :
  raises_cls BeartypeDecorHintPepException
    (get_hint_pep_stdlib_type py39 World.int).
Proof.
  pose proof (invalid_hint_propagates py39 World.int _ eq_refl)
    as (_ & _ & Hstrict).
  unfold raises_cls.
  destruct (get_hint_pep_stdlib_type py39 World.int) as [t|e];
    [discriminate Hstrict|].
  injection Hstrict as ->. reflexivity.
Defined.

(** X2. The accepted [None] singleton is classified before any other
    test is asked, and its sign is what [reduce_hint_pep484_none] reduces
    it to: the type of [None]. *)
Theorem get_hint_pep_sign_None (host : Host)
    (args : list pyobj) (kwargs : list (string * pyobj)) :
  die_unless_hint_pep host PyNone = Return tt ->
  get_hint_pep_sign host PyNone = Return (NoneType host) /\
  get_hint_pep_sign host PyNone =
    reduce_hint_pep484_none host PyNone args kwargs.
Proof.
  intros Hvalid. unfold get_hint_pep_sign, reduce_hint_pep484_none.
  rewrite Hvalid. split; reflexivity.
Qed.

Lemma get_hint_pep_sign_None_witness :
  get_hint_pep_sign py39 PyNone = Return World.NoneType.
Proof.
  exact (proj1 (get_hint_pep_sign_None py39 [] [] eq_refl)).
Defined.

(** X3. Past the generic, PEP 585 and bare-class branches the classifier
    tries forward references, then new types, then type variables: a
    forward reference gets [HINT_PEP484_TYPE_FORWARDREF] whatever the
    other two tests say, a new type that is no forward reference gets
    [NewType], and a type variable that is neither gets [TypeVar]. None of
    them is classified by its representation. *)
Theorem get_hint_pep_sign_forwardref_newtype_typevar
    (host : Host) (hint : pyobj) :
  die_unless_hint_pep host hint = Return tt ->
  hint <> PyNone ->
  is_hint_pep_generic host hint = false ->
  is_hint_pep585_builtin host hint = false ->
  is_class_unsubscripted host hint = Return false ->
  (is_hint_forwardref host hint = true ->
   get_hint_pep_sign host hint = Return (HINT_PEP484_TYPE_FORWARDREF host)) /\
  (is_hint_forwardref host hint = false ->
   is_hint_pep484_newtype host hint = true ->
   get_hint_pep_sign host hint = Return (NewType host)) /\
  (is_hint_forwardref host hint = false ->
   is_hint_pep484_newtype host hint = false ->
   is_hint_pep_typevar host hint = true ->
   get_hint_pep_sign host hint = Return (TypeVar host)).
Proof.
  intros Hvalid Hnone Hgen H585 Hstd.
  apply is_None_false in Hnone.
  unfold get_hint_pep_sign. rewrite Hvalid. run.
  rewrite Hnone, Hgen, H585, Hstd.
  split; [|split].
  - intros ->. reflexivity.
  - intros -> ->. reflexivity.
  - intros -> -> ->. reflexivity.
Qed.

Lemma get_hint_pep_sign_forwardref_newtype_typevar_witness :
  get_hint_pep_sign py39 World.FwdRef = Return World.ForwardRef /\
  get_hint_pep_sign py39 World.UserId = Return World.NewType /\
  get_hint_pep_sign py39 World.T = Return World.TypeVar.
Proof.
  split; [|split].
  - refine (proj1 (get_hint_pep_sign_forwardref_newtype_typevar
      py39 World.FwdRef eq_refl _ eq_refl eq_refl eq_refl) eq_refl).
    discriminate.
  - refine (proj1 (proj2 (get_hint_pep_sign_forwardref_newtype_typevar
      py39 World.UserId eq_refl _ eq_refl eq_refl eq_refl)) eq_refl eq_refl).
    discriminate.
  - refine (proj2 (proj2 (get_hint_pep_sign_forwardref_newtype_typevar
      py39 World.T eq_refl _ eq_refl eq_refl eq_refl))
      eq_refl eq_refl eq_refl).
    discriminate.
Defined.

(** X4. On Python 3.6 a type alias that no earlier branch matches is
    classified by its [name] slot, not by its representation: the sign is
    the attribute of [typing] with that name, and when [typing] has no
    such attribute the classifier raises [AttributeError], as its
    docstring announces. *)
Theorem type_alias_sign_by_name
    (host : Host) (name : string) (type_var impl_type : pyobj) :
  let hint := PyTypeAlias name type_var impl_type in
  structural_branches_miss host hint ->
  IS_PYTHON_3_6 host = true ->
  (forall sign,
     py_attr (typing host) name = Some sign ->
     get_hint_pep_sign host hint = Return sign) /\
  (py_attr (typing host) name = None ->
   raises_cls AttributeError (get_hint_pep_sign host hint)).
Proof.
  intros hint (Hvalid & Hnone & Hgen & H585 & Hstd & Hfwd & Hnew & Htv) H36.
  subst hint. unfold get_hint_pep_sign. rewrite Hvalid. run.
  rewrite Hgen, H585. unfold is_class_unsubscripted. simpl.
  rewrite Hfwd, Hnew, Htv, H36. simpl.
  unfold getattr_strict. split.
  - intros sign ->. reflexivity.
  - intros ->. reflexivity.
Qed.

Lemma type_alias_sign_by_name_witness :
  get_hint_pep_sign py36 World.Pattern_str = Return World.Pattern /\
  raises_cls AttributeError (get_hint_pep_sign py36 More.Match_bytes).
Proof.
  split.
  - refine (proj1 (type_alias_sign_by_name py36 "Pattern" World.str
      World.re_Pattern _ eq_refl) World.Pattern eq_refl).
    repeat split; try reflexivity. discriminate.
  - refine (proj2 (type_alias_sign_by_name py36 "Match"
      (World.builtin_class "bytes") (World.builtin_class "_sre.SRE_Match")
      _ eq_refl) eq_refl).
    repeat split; try reflexivity. discriminate.
Defined.

(** X5. What the fallback returns is never made up: when the classifier
    reaches the representation and returns a sign, the module name of the
    representation is in [HINT_PEP_MODULE_NAMES], that module was
    imported, and the sign is the value, other than [None], of the
    module's attribute with the corrected name. *)
Theorem get_hint_pep_sign_from_repr_sound
    (host : Host) (hint sign : pyobj) :
  structural_branches_miss host hint ->
  IS_PYTHON_3_6 host && isinstance_TypeAlias hint = false ->
  get_hint_pep_sign host hint = Return sign ->
  repr_module_name hint ∈ HINT_PEP_MODULE_NAMES host /\
  sign <> PyNone /\
  exists hint_module,
    import_module host (repr_module_name hint)
      BeartypeDecorHintPepSignException = Return hint_module /\
    py_attr hint_module (repr_sign_name hint) = Some sign.
Proof.
  intros Hmiss Halias.
  rewrite (get_hint_pep_sign_falls_back host hint Hmiss Halias).
  rewrite get_hint_pep_sign_from_repr_names.
  case_bool_decide as Hin; [discriminate|].
  destruct (import_module host (repr_module_name hint)
              BeartypeDecorHintPepSignException) as [hint_module|e];
    run; [|discriminate].
  unfold getattr_default.
  destruct (py_attr hint_module (repr_sign_name hint)) as [v|] eqn:Hattr;
    simpl; [|discriminate].
  destruct (is_None v) eqn:Hv; [discriminate|].
  intros [= <-]. apply is_None_false in Hv.
  split; [exact Hin|]. split; [exact Hv|].
  exists hint_module. split; [reflexivity|exact Hattr].
Qed.

Lemma get_hint_pep_sign_from_repr_sound_witness :
  repr_module_name World.Union_int_str ∈ HINT_PEP_MODULE_NAMES py39 /\
  World.Union <> PyNone /\
  exists hint_module,
    import_module py39 (repr_module_name World.Union_int_str)
      BeartypeDecorHintPepSignException = Return hint_module /\
    py_attr hint_module (repr_sign_name World.Union_int_str)
      = Some World.Union.
Proof.
  refine (get_hint_pep_sign_from_repr_sound py39 World.Union_int_str
            World.Union _ eq_refl eq_refl).
  repeat split; try reflexivity. discriminate.
Defined.

(** X6. In the fallback the subscription does not count: two hints whose
    representations are the same dotted name, [module.attr], followed by
    any bracketed arguments, get the same sign. *)
Theorem get_hint_pep_sign_ignores_subscription
    (host : Host) (hint1 hint2 sign : pyobj)
    (module_name attr_name args1 args2 : string) :
  structural_branches_miss host hint1 ->
  structural_branches_miss host hint2 ->
  IS_PYTHON_3_6 host && isinstance_TypeAlias hint1 = false ->
  IS_PYTHON_3_6 host && isinstance_TypeAlias hint2 = false ->
  occurs "." module_name = false ->
  occurs "[" attr_name = false ->
  repr hint1 = module_name +:+ "." +:+ attr_name +:+ "[" +:+ args1 ->
  repr hint2 = module_name +:+ "." +:+ attr_name +:+ "[" +:+ args2 ->
  get_hint_pep_sign host hint1 = Return sign ->
  get_hint_pep_sign host hint2 = Return sign.
Proof.
  intros Hmiss1 Hmiss2 Halias1 Halias2 Hdot Hbracket Hrepr1 Hrepr2.
  rewrite (get_hint_pep_sign_falls_back host hint1 Hmiss1 Halias1).
  rewrite (get_hint_pep_sign_falls_back host hint2 Hmiss2 Halias2).
  rewrite !get_hint_pep_sign_from_repr_names.
  assert (Hnames : forall hint args,
            repr hint = module_name +:+ "." +:+ attr_name +:+ "[" +:+ args ->
            repr_module_name hint = module_name /\
            repr_sign_name hint =
              default attr_name
                (_HINT_PEP_TYPING_NAME_BAD_TO_GOOD !! attr_name)).
  { intros hint args Hrepr. unfold repr_module_name, repr_sign_name.
    rewrite Hrepr.
    change (module_name +:+ "." +:+ attr_name +:+ "[" +:+ args)
      with (module_name +:+ String "." (attr_name +:+ String "[" args)).
    rewrite (partition_app "." module_name _ Hdot). simpl.
    rewrite (partition_app "[" attr_name _ Hbracket). simpl.
    split; reflexivity. }
  destruct (Hnames hint1 args1 Hrepr1) as [-> ->].
  destruct (Hnames hint2 args2 Hrepr2) as [-> ->].
  case_bool_decide; [discriminate|].
  destruct (import_module host module_name
              BeartypeDecorHintPepSignException) as [hint_module|e];
    run; [|discriminate].
  destruct (is_None _); [discriminate|]. intros Hsign; exact Hsign.
Qed.

Lemma get_hint_pep_sign_ignores_subscription_witness :
  get_hint_pep_sign py39 More.Union_str_list = Return World.Union.
Proof.
  refine (get_hint_pep_sign_ignores_subscription py39
            World.Union_int_str More.Union_str_list World.Union
            "typing" "Union" "int, str]" "str, list]"
            _ _ eq_refl eq_refl eq_refl eq_refl eq_refl eq_refl eq_refl).
  - repeat split; try reflexivity. discriminate.
  - repeat split; try reflexivity. discriminate.
Defined.

(** X7. The correction table maps no name to a name it would correct
    again: a corrected name is left alone by a second correction, and a
    name that is not one of the bad ones is left alone by the first. *)
Theorem bad_to_good_is_idempotent (sign_name : string) :
  let good :=
    default sign_name (_HINT_PEP_TYPING_NAME_BAD_TO_GOOD !! sign_name) in
  _HINT_PEP_TYPING_NAME_BAD_TO_GOOD !! good = None /\
  default good (_HINT_PEP_TYPING_NAME_BAD_TO_GOOD !! good) = good /\
  (_HINT_PEP_TYPING_NAME_BAD_TO_GOOD !! sign_name = None ->
   good = sign_name).
Proof.
  simpl. unfold _HINT_PEP_TYPING_NAME_BAD_TO_GOOD.
  destruct (decide (sign_name = "AbstractContextManager")) as [->|Hsync].
  { rewrite lookup_insert_eq. simpl. split; [reflexivity|].
    split; [reflexivity|discriminate]. }
  rewrite (lookup_insert_ne _ _ _ _ (not_eq_sym Hsync)).
  destruct (decide (sign_name = "AbstractAsyncContextManager"))
    as [->|Hasync].
  { rewrite lookup_insert_eq. simpl. split; [reflexivity|].
    split; [reflexivity|discriminate]. }
  rewrite (lookup_insert_ne _ _ _ _ (not_eq_sym Hasync)).
  rewrite lookup_empty. simpl.
  rewrite (lookup_insert_ne _ _ _ _ (not_eq_sym Hsync)).
  rewrite (lookup_insert_ne _ _ _ _ (not_eq_sym Hasync)).
  rewrite lookup_empty. repeat split.
Qed.

Lemma bad_to_good_is_idempotent_witness :
  default "List" (_HINT_PEP_TYPING_NAME_BAD_TO_GOOD !! "List") = "List".
Proof.
  exact (proj2 (proj2 (bad_to_good_is_idempotent "List")) eq_refl).
Defined.

(* ------------------------------------------------------------------ *)
(** ** Further properties of the structural accessors *)

(** A failure of [get_hint_pep_typevars] is one of the PEP 585 getter. *)
Lemma typevars_failure_is_extractor_failure
    (host : Host) (hint : pyobj) :
  (IS_PYTHON_AT_LEAST_3_9 host = false ->
   exists typevars, get_hint_pep_typevars host hint = Return typevars) /\
  (forall e,
     get_hint_pep_typevars host hint = Raise e ->
     get_hint_pep585_generic_typevars host hint = Raise e).
Proof.
  unfold get_hint_pep_typevars. split.
  - intros ->. destruct (IS_PYTHON_AT_LEAST_3_7 host); [eauto|].
    destruct hint; try (eexists; reflexivity).
    destruct (is_hint_pep_typevar host hint1); eexists; reflexivity.
  - intros e. destruct (IS_PYTHON_AT_LEAST_3_9 host).
    + destruct (is_None (getattr_default hint "__parameters__" PyNone));
        [|discriminate].
      destruct (is_hint_pep585_generic host hint); [|discriminate].
      destruct (get_hint_pep585_generic_typevars host hint) as [tvs|e'];
        run; [discriminate|].
      intros [= ->]. reflexivity.
    + destruct (IS_PYTHON_AT_LEAST_3_7 host); [discriminate|].
      destruct hint; try discriminate.
      destruct (is_hint_pep_typevar host hint1); discriminate.
Qed.

(** X8. [get_hint_pep_typevars] raises nothing of its own. Before Python
    3.9 it always returns; from Python 3.9 on the only exception it lets
    through is the one [get_hint_pep585_generic_typevars] raises, and that
    getter is only asked for a PEP 585 generic whose [__parameters__] is
    missing or [None]. *)
Theorem get_hint_pep_typevars_raises_only_from_extractor
    (host : Host) (hint : pyobj) :
  (IS_PYTHON_AT_LEAST_3_9 host = false ->
   exists typevars, get_hint_pep_typevars host hint = Return typevars) /\
  (forall e,
     get_hint_pep_typevars host hint = Raise e ->
     IS_PYTHON_AT_LEAST_3_9 host = true /\
     getattr_default hint "__parameters__" PyNone = PyNone /\
     is_hint_pep585_generic host hint = true /\
     get_hint_pep585_generic_typevars host hint = Raise e).
Proof.
  unfold get_hint_pep_typevars. split.
  - intros ->. destruct (IS_PYTHON_AT_LEAST_3_7 host); [eauto|].
    destruct hint; try (eexists; reflexivity).
    destruct (is_hint_pep_typevar host hint1); eexists; reflexivity.
  - intros e. destruct (IS_PYTHON_AT_LEAST_3_9 host).
    + destruct (is_None (getattr_default hint "__parameters__" PyNone))
        eqn:Hparams; [|discriminate].
      apply is_None_true in Hparams.
      destruct (is_hint_pep585_generic host hint); [|discriminate].
      destruct (get_hint_pep585_generic_typevars host hint) as [tvs|e'];
        run; [discriminate|].
      intros [= ->]. auto.
    + destruct (IS_PYTHON_AT_LEAST_3_7 host); [discriminate|].
      destruct hint; try discriminate.
      destruct (is_hint_pep_typevar host hint1); discriminate.
Qed.

Lemma get_hint_pep_typevars_raises_only_from_extractor_witness :
  exists typevars,
    get_hint_pep_typevars py38 World.List_int = Return typevars.
Proof.
  exact (proj1 (get_hint_pep_typevars_raises_only_from_extractor
                  py38 World.List_int) eq_refl).
Defined.

(** X9. From Python 3.9 on and on Python 3.6, [get_hint_pep_typevars]
    never returns [None]: a [__parameters__] that is [None] counts as
    missing. On Python 3.7 and 3.8 the attribute is handed back as it is,
    [None] included. *)
Theorem get_hint_pep_typevars_None (host : Host) (hint : pyobj) :
  (IS_PYTHON_AT_LEAST_3_9 host = true \/ IS_PYTHON_AT_LEAST_3_7 host = false ->
   forall typevars,
     get_hint_pep_typevars host hint = Return typevars ->
     typevars <> PyNone) /\
  (IS_PYTHON_AT_LEAST_3_9 host = false ->
   IS_PYTHON_AT_LEAST_3_7 host = true ->
   forall typevars,
     py_attr hint "__parameters__" = Some typevars ->
     get_hint_pep_typevars host hint = Return typevars).
Proof.
  unfold get_hint_pep_typevars, getattr_default, py_or. split.
  - intros Hversion typevars.
    destruct (IS_PYTHON_AT_LEAST_3_9 host) eqn:H39.
    + destruct (is_None (default PyNone (py_attr hint "__parameters__")))
        eqn:Hparams.
      * destruct (is_hint_pep585_generic host hint).
        -- destruct (get_hint_pep585_generic_typevars host hint); run;
             intros [= <-]; discriminate.
        -- intros [= <-]. discriminate.
      * intros [= <-]. apply is_None_false. exact Hparams.
    + destruct Hversion as [Hfalse| ->]; [discriminate Hfalse|].
      destruct hint; simpl.
      1-3: intros [= <-]; discriminate.
      * destruct (is_hint_pep_typevar host hint1); intros [= <-]; discriminate.
      * destruct (assoc_lookup "__parameters__" l) as [v|]; simpl.
        -- destruct (truthy v) eqn:Hv; intros [= <-]; [|discriminate].
           intros ->. discriminate.
        -- intros [= <-]. discriminate.
  - intros -> -> typevars ->. reflexivity.
Qed.

Lemma get_hint_pep_typevars_None_witness :
  (forall typevars,
     get_hint_pep_typevars py36 World.Tuple36 = Return typevars ->
     typevars <> PyNone) /\
  get_hint_pep_typevars py38 World.Tuple36 = Return PyNone.
Proof.
  split.
  - exact (proj1 (get_hint_pep_typevars_None py36 World.Tuple36)
             (or_intror eq_refl)).
  - exact (proj2 (get_hint_pep_typevars_None py38 World.Tuple36)
             eq_refl eq_refl PyNone eq_refl).
Defined.

(** X10. On Python 3.6 the [type_var] slot of a type alias is reported
    exactly once: as the only type variable when it is a type variable,
    and as the only type argument when it is not. *)
Theorem type_alias_args_and_typevars
    (host : Host) (name : string) (type_var impl_type : pyobj) :
  let hint := PyTypeAlias name type_var impl_type in
  IS_PYTHON_AT_LEAST_3_7 host = false ->
  IS_PYTHON_AT_LEAST_3_9 host = false ->
  exists args typevars,
    get_hint_pep_args host hint = PyTuple args /\
    get_hint_pep_typevars host hint = Return (PyTuple typevars) /\
    args ++ typevars = [type_var] /\
    (args = [] <-> is_hint_pep_typevar host type_var = true).
Proof.
  intros hint H37 H39. subst hint.
  unfold get_hint_pep_args, get_hint_pep_typevars. rewrite H37, H39.
  destruct (is_hint_pep_typevar host type_var).
  - exists [], [type_var]. repeat split.
  - exists [type_var], []. repeat split; discriminate.
Qed.

Lemma type_alias_args_and_typevars_witness :
  exists args typevars,
    get_hint_pep_args py36 World.Pattern = PyTuple args /\
    get_hint_pep_typevars py36 World.Pattern = Return (PyTuple typevars) /\
    args ++ typevars = [World.AnyStr] /\
    (args = [] <-> is_hint_pep_typevar py36 World.AnyStr = true).
Proof.
  exact (type_alias_args_and_typevars py36 "Pattern" World.AnyStr
           World.re_Pattern eq_refl eq_refl).
Defined.

(** X11. On Python 3.6 both accessors turn every false value ([None],
    the empty string, the empty tuple) into the empty tuple: what they
    return is either true or [()]. *)
Theorem py36_accessors_normalise_falsy (host : Host) (hint : pyobj) :
  IS_PYTHON_AT_LEAST_3_7 host = false ->
  IS_PYTHON_AT_LEAST_3_9 host = false ->
  (truthy (get_hint_pep_args host hint) = false ->
   get_hint_pep_args host hint = PyTuple []) /\
  (forall typevars,
     get_hint_pep_typevars host hint = Return typevars ->
     truthy typevars = false -> typevars = PyTuple []).
Proof.
  intros H37 H39.
  unfold get_hint_pep_args, get_hint_pep_typevars, py_or.
  rewrite H37, H39. split.
  - destruct hint; simpl; try reflexivity.
    + destruct (is_hint_pep_typevar host hint1); simpl;
        [reflexivity|discriminate].
    + destruct (truthy (getattr_default (PyObj p s l) "__args__" (PyTuple [])))
        eqn:Hargs; [|reflexivity].
      intros Hfalse. rewrite Hargs in Hfalse. discriminate.
  - intros typevars. destruct hint; simpl.
    1-3: intros [= <-]; reflexivity.
    + destruct (is_hint_pep_typevar host hint1); intros [= <-];
        [discriminate|reflexivity].
    + destruct (truthy (getattr_default (PyObj p s l) "__parameters__"
                          (PyTuple []))) eqn:Hparams;
        intros [= <-]; [|reflexivity].
      intros Hfalse. rewrite Hparams in Hfalse. discriminate.
Qed.

Lemma py36_accessors_normalise_falsy_witness :
  get_hint_pep_args py36 World.Tuple36 = PyTuple [] /\
  (forall typevars,
     get_hint_pep_typevars py36 World.Tuple36 = Return typevars ->
     truthy typevars = false -> typevars = PyTuple []).
Proof.
  pose proof (py36_accessors_normalise_falsy py36 World.Tuple36
                eq_refl eq_refl) as [Hargs Htypevars].
  exact (conj (Hargs eq_refl) Htypevars).
Defined.

(** X12. On Python 3.6, for a hint that is no type alias, the origin
    object is read from [__extra__]: its value when that is not [None],
    the value of [__origin__] (or [None]) when [__extra__] is [None], and
    the [SENTINEL] placeholder itself when the hint has no [__extra__] at
    all. In that last case [__origin__] is never looked at, so
    [get_hint_pep_generic_type_or_none] can only answer the hint or
    [None]. *)
Theorem origin_object_py36 (host : Host) (hint : pyobj) :
  IS_PYTHON_AT_LEAST_3_7 host = false ->
  isinstance_TypeAlias hint = false ->
  SENTINEL host <> PyNone ->
  isinstance_type (SENTINEL host) = false ->
  (forall extra,
     py_attr hint "__extra__" = Some extra -> extra <> PyNone ->
     _get_hint_pep_origin_object_or_none host hint = extra) /\
  (py_attr hint "__extra__" = Some PyNone ->
   _get_hint_pep_origin_object_or_none host hint =
     getattr_default hint "__origin__" PyNone) /\
  (py_attr hint "__extra__" = None ->
   _get_hint_pep_origin_object_or_none host hint = SENTINEL host /\
   get_hint_pep_generic_type_or_none host hint =
     if isinstance_type hint then hint else PyNone).
Proof.
  intros H37 Halias Hsentinel Hnotype.
  apply is_None_false in Hsentinel.
  unfold get_hint_pep_generic_type_or_none,
    _get_hint_pep_origin_object_or_none, getattr_default.
  rewrite H37. destruct hint; try discriminate; simpl.
  1-3: split; [intros extra Hextra; discriminate Hextra|];
       split; [intros Hextra; discriminate Hextra|];
       intros _; rewrite Hsentinel; simpl; rewrite Hnotype;
       split; reflexivity.
  split; [|split].
  - intros extra -> Hextra. simpl.
    apply is_None_false in Hextra. rewrite Hextra. reflexivity.
  - intros ->. reflexivity.
  - intros ->. simpl. rewrite Hsentinel. simpl. rewrite Hnotype.
    split; reflexivity.
Qed.

Lemma origin_object_py36_witness :
  _get_hint_pep_origin_object_or_none py36 World.Tuple36 =
    World.builtin_class "tuple" /\
  _get_hint_pep_origin_object_or_none py36 More.Generic36 =
    World.MuhGeneric /\
  _get_hint_pep_origin_object_or_none py36 World.List_int = World.SENTINEL.
Proof.
  pose proof (fun hint alias =>
    origin_object_py36 py36 hint eq_refl alias
      (fun H : World.SENTINEL = PyNone =>
         eq_ind World.SENTINEL
           (fun o => match o with PyNone => False | _ => True end) I _ H)
      eq_refl) as Horigin.
  split; [|split].
  - refine (proj1 (Horigin World.Tuple36 eq_refl) _ eq_refl _). discriminate.
  - exact (proj1 (proj2 (Horigin More.Generic36 eq_refl)) eq_refl).
  - exact (proj1 (proj2 (proj2 (Horigin World.List_int eq_refl)) eq_refl)).
Defined.

(** X13. Whatever [get_hint_pep_stdlib_type] returns is not [None], is
    what [get_hint_pep_stdlib_type_or_none] returns, and is the origin
    object of a hint whose sign is in
    [HINT_PEP_SIGNS_TYPE_ORIGIN_STDLIB]. *)
Theorem get_hint_pep_stdlib_type_sound (host : Host) (hint origin : pyobj) :
  get_hint_pep_stdlib_type host hint = Return origin ->
  origin <> PyNone /\
  get_hint_pep_stdlib_type_or_none host hint = Return origin /\
  origin = _get_hint_pep_origin_object_or_none host hint /\
  exists sign,
    get_hint_pep_sign host hint = Return sign /\
    sign ∈ HINT_PEP_SIGNS_TYPE_ORIGIN_STDLIB host.
Proof.
  unfold get_hint_pep_stdlib_type, get_hint_pep_stdlib_type_or_none.
  destruct (get_hint_pep_sign host hint) as [sign|e]; run; [|discriminate].
  destruct (py_in sign (HINT_PEP_SIGNS_TYPE_ORIGIN_STDLIB host)) eqn:Hin;
    simpl; [|discriminate].
  destruct (is_None (_get_hint_pep_origin_object_or_none host hint))
    eqn:Hnone; [discriminate|].
  intros [= <-]. apply is_None_false in Hnone. apply py_in_true in Hin.
  repeat split; try assumption. exists sign. split; [reflexivity|exact Hin].
Qed.

Lemma get_hint_pep_stdlib_type_sound_witness :
  World.list_ <> PyNone /\
  get_hint_pep_stdlib_type_or_none py39 World.list_int = Return World.list_ /\
  World.list_ = _get_hint_pep_origin_object_or_none py39 World.list_int /\
  exists sign,
    get_hint_pep_sign py39 World.list_int = Return sign /\
    sign ∈ HINT_PEP_SIGNS_TYPE_ORIGIN_STDLIB py39.
Proof.
  exact (get_hint_pep_stdlib_type_sound py39 World.list_int World.list_
           eq_refl).
Defined.

(** X14. From Python 3.7 on, a PEP 585 builtin hint that is no generic
    and whose [__origin__] is a listed standard library sign has that
    origin both as its sign and as its standard library origin type. *)
Theorem pep585_builtin_sign_is_stdlib_type (host : Host) (hint t : pyobj) :
  IS_PYTHON_AT_LEAST_3_7 host = true ->
  die_unless_hint_pep host hint = Return tt ->
  is_hint_pep_generic host hint = false ->
  is_hint_pep585_builtin host hint = true ->
  py_attr hint "__origin__" = Some t ->
  t ∈ HINT_PEP_SIGNS_TYPE_ORIGIN_STDLIB host ->
  t <> PyNone ->
  get_hint_pep_sign host hint = Return t /\
  get_hint_pep_stdlib_type_or_none host hint = Return t /\
  get_hint_pep_stdlib_type host hint = Return t.
Proof.
  intros H37 Hvalid Hgen H585 Horigin Hin Hsome.
  assert (Hsign : get_hint_pep_sign host hint = Return t).
  { unfold get_hint_pep_sign. rewrite Hvalid. run.
    destruct hint; try discriminate. simpl.
    rewrite Hgen, H585. unfold getattr_strict. rewrite Horigin.
    reflexivity. }
  assert (Hor_none : get_hint_pep_stdlib_type_or_none host hint = Return t).
  { unfold get_hint_pep_stdlib_type_or_none. rewrite Hsign. run.
    apply py_in_true in Hin. rewrite Hin.
    unfold _get_hint_pep_origin_object_or_none, getattr_default.
    rewrite H37, Horigin. reflexivity. }
  split; [exact Hsign|]. split; [exact Hor_none|].
  unfold get_hint_pep_stdlib_type. rewrite Hor_none. run.
  apply is_None_false in Hsome. rewrite Hsome. reflexivity.
Qed.

Lemma pep585_builtin_sign_is_stdlib_type_witness :
  get_hint_pep_sign py39 World.list_int = Return World.list_ /\
  get_hint_pep_stdlib_type_or_none py39 World.list_int = Return World.list_ /\
  get_hint_pep_stdlib_type py39 World.list_int = Return World.list_.
Proof.
  refine (pep585_builtin_sign_is_stdlib_type py39 World.list_int World.list_
            eq_refl eq_refl eq_refl eq_refl eq_refl _ _).
  - apply (bool_decide_unpack _). vm_compute. exact I.
  - discriminate.
Defined.

(** X15. From Python 3.7 on, a class whose own origin is no class and a
    hint whose [__origin__] is that class are both mapped to the class by
    [get_hint_pep_generic_type_or_none], so applying the getter to its
    own result changes nothing: an unsubscripted generic is returned as
    is and a subscripted one is reduced to the generic it subscripts. *)
Theorem get_hint_pep_generic_type_or_none_subscripted
    (host : Host) (generic subscripted : pyobj) :
  IS_PYTHON_AT_LEAST_3_7 host = true ->
  isinstance_type generic = true ->
  isinstance_type (getattr_default generic "__origin__" PyNone) = false ->
  py_attr subscripted "__origin__" = Some generic ->
  get_hint_pep_generic_type_or_none host generic = generic /\
  get_hint_pep_generic_type_or_none host subscripted = generic /\
  get_hint_pep_generic_type_or_none host
    (get_hint_pep_generic_type_or_none host subscripted) =
  get_hint_pep_generic_type_or_none host subscripted.
Proof.
  intros H37 Hcls Horigin Hsub.
  assert (Hgeneric :
    get_hint_pep_generic_type_or_none host generic = generic).
  { unfold get_hint_pep_generic_type_or_none,
      _get_hint_pep_origin_object_or_none.
    rewrite H37, Horigin, Hcls. reflexivity. }
  assert (Hsubscripted :
    get_hint_pep_generic_type_or_none host subscripted = generic).
  { unfold get_hint_pep_generic_type_or_none,
      _get_hint_pep_origin_object_or_none, getattr_default.
    rewrite H37, Hsub. simpl. rewrite Hcls. reflexivity. }
  rewrite Hsubscripted, Hgeneric. repeat split.
Qed.

Lemma get_hint_pep_generic_type_or_none_subscripted_witness :
  get_hint_pep_generic_type_or_none py39 World.MuhGeneric =
    World.MuhGeneric /\
  get_hint_pep_generic_type_or_none py39 World.MuhGeneric_int =
    World.MuhGeneric /\
  get_hint_pep_generic_type_or_none py39
    (get_hint_pep_generic_type_or_none py39 World.MuhGeneric_int) =
  get_hint_pep_generic_type_or_none py39 World.MuhGeneric_int.
Proof.
  exact (get_hint_pep_generic_type_or_none_subscripted py39
           World.MuhGeneric World.MuhGeneric_int
           eq_refl eq_refl eq_refl eq_refl).
Defined.

(* ------------------------------------------------------------------ *)
(** ** Further properties of the deprecation reducer *)

(** X16. [reduce_hint_pep484_deprecated] only ever appends to the log of
    warnings: whatever [exception_prefix] is, the warnings emitted before
    the call are kept, in order, and at most one is added. Nothing is
    remembered between calls: a second call on a deprecated hint adds the
    same warning again. *)
Theorem reduce_hint_pep484_deprecated_appends
    (host : Host) (hint exception_prefix : pyobj)
    (args : list pyobj) (kwargs : list (string * pyobj))
    (log : list warning) :
  let out1 :=
    reduce_hint_pep484_deprecated host hint exception_prefix args kwargs log
  in
  let out2 :=
    reduce_hint_pep484_deprecated host hint exception_prefix args kwargs
      out1.2 in
  (exists new, out1.2 = log ++ new /\ length new <= 1) /\
  (isinstance_str exception_prefix = true ->
   repr_bare host hint ∈ HINTS_PEP484_REPR_PREFIX_DEPRECATED host ->
   exists w, out1.2 = log ++ [w] /\ out2.2 = log ++ [w; w]).
Proof.
  unfold reduce_hint_pep484_deprecated, repr_bare, py_assert. simpl.
  destruct (isinstance_str exception_prefix); simpl.
  - destruct (partition (get_hint_repr host hint) "[") as [[bare sep] rest].
    simpl. case_bool_decide as Hin; simpl.
    + unfold issue_warning. split.
      * eexists. split; [reflexivity|]. simpl. lia.
      * intros _ _. eexists. split; [reflexivity|].
        rewrite <- app_assoc. reflexivity.
    + split.
      * exists []. rewrite app_nil_r. split; [reflexivity|]. simpl. lia.
      * intros _ Hin'. contradiction.
  - split.
    + exists []. rewrite app_nil_r. split; [reflexivity|]. simpl. lia.
    + discriminate.
Qed.

Lemma reduce_hint_pep484_deprecated_appends_witness :
  exists w,
    (reduce_hint_pep484_deprecated py39 World.List_int (PyStr "f(): ")
       [] [] []).2 = [] ++ [w] /\
    (reduce_hint_pep484_deprecated py39 World.List_int (PyStr "f(): ") [] []
       (reduce_hint_pep484_deprecated py39 World.List_int (PyStr "f(): ")
          [] [] []).2).2 = [] ++ [w; w].
Proof.
  refine (proj2 (reduce_hint_pep484_deprecated_appends py39 World.List_int
                   (PyStr "f(): ") [] [] []) eq_refl _).
  apply (bool_decide_unpack _). vm_compute. exact I.
Defined.

(** The log after the call for a deprecated hint: the one warning, its
    category and its message. *)
Lemma reduce_hint_pep484_deprecated_emits
    (host : Host) (hint : pyobj) (prefix : string)
    (args : list pyobj) (kwargs : list (string * pyobj))
    (log : list warning) :
  repr_bare host hint ∈ HINTS_PEP484_REPR_PREFIX_DEPRECATED host ->
  exists advice,
    (reduce_hint_pep484_deprecated host hint (PyStr prefix) args kwargs
       log).2 =
    log ++ [mk_warning BeartypeDecorHintPep585DeprecationWarning
              (prefix +:+ "PEP 484 type hint " +:+ repr hint +:+
               advice +:+ URL_PEP585_DEPRECATIONS host)].
Proof.
  intros Hin.
  unfold reduce_hint_pep484_deprecated, repr_bare, py_assert in *.
  simpl in *.
  destruct (partition (get_hint_repr host hint) "[") as [[bare sep] rest].
  simpl in *. rewrite bool_decide_eq_true_2 by exact Hin.
  unfold issue_warning. simpl. eexists.
  do 2 f_equal. f_equal. do 3 f_equal.
  rewrite <- !append_assoc. reflexivity.
Qed.

(** X17. The one warning emitted for a deprecated hint is a
    [BeartypeDecorHintPep585DeprecationWarning] whose message starts with
    [exception_prefix], goes on with the representation of the hint and
    ends with [URL_PEP585_DEPRECATIONS]. *)
Theorem reduce_hint_pep484_deprecated_message
    (host : Host) (hint : pyobj) (prefix : string)
    (args : list pyobj) (kwargs : list (string * pyobj))
    (log : list warning) :
  repr_bare host hint ∈ HINTS_PEP484_REPR_PREFIX_DEPRECATED host ->
  exists advice,
    (reduce_hint_pep484_deprecated host hint (PyStr prefix) args kwargs
       log).2 =
    log ++ [mk_warning BeartypeDecorHintPep585DeprecationWarning
              (prefix +:+ "PEP 484 type hint " +:+ repr hint +:+
               advice +:+ URL_PEP585_DEPRECATIONS host)].
Proof. apply reduce_hint_pep484_deprecated_emits. Qed.

Lemma reduce_hint_pep484_deprecated_message_witness :
  exists advice,
    (reduce_hint_pep484_deprecated py39 World.List_int (PyStr "f(): ")
       [] [] []).2 =
    [] ++ [mk_warning BeartypeDecorHintPep585DeprecationWarning
             ("f(): " +:+ "PEP 484 type hint " +:+ repr World.List_int +:+
              advice +:+ URL_PEP585_DEPRECATIONS py39)].
Proof.
  refine (reduce_hint_pep484_deprecated_message py39 World.List_int "f(): "
            [] [] [] _).
  apply (bool_decide_unpack _). vm_compute. exact I.
Defined.

(** The log grows by one exactly for a deprecated prefix. *)
Lemma deprecated_log_grows_iff
    (host : Host) (hint : pyobj) (prefix : string)
    (args : list pyobj) (kwargs : list (string * pyobj))
    (log : list warning) :
  length (reduce_hint_pep484_deprecated host hint (PyStr prefix)
            args kwargs log).2 = S (length log) <->
  repr_bare host hint ∈ HINTS_PEP484_REPR_PREFIX_DEPRECATED host.
Proof.
  unfold reduce_hint_pep484_deprecated, repr_bare. simpl.
  destruct (partition (get_hint_repr host hint) "[") as [[bare sep] rest].
  simpl. case_bool_decide as Hin; simpl.
  - unfold issue_warning. rewrite length_app. simpl.
    split; [intros _; exact Hin | intros _; lia].
  - split; [lia | intros Hin'; contradiction].
Qed.

(** X18. Deprecation is decided on the unsubscripted name alone: a hint
    whose representation is a bracket-free name followed by any bracketed
    arguments is warned about if and only if that name is in
    [HINTS_PEP484_REPR_PREFIX_DEPRECATED], and a hint whose representation
    holds no bracket if and only if the whole representation is. *)
Theorem reduce_hint_pep484_deprecated_ignores_subscription
    (host : Host) (hint : pyobj) (prefix bare : string)
    (args : list pyobj) (kwargs : list (string * pyobj))
    (log : list warning) :
  occurs "[" bare = false ->
  (exists subscription,
     get_hint_repr host hint = bare +:+ "[" +:+ subscription) \/
  get_hint_repr host hint = bare ->
  length (reduce_hint_pep484_deprecated host hint (PyStr prefix)
            args kwargs log).2 = S (length log) <->
  bare ∈ HINTS_PEP484_REPR_PREFIX_DEPRECATED host.
Proof.
  intros Hbare Hrepr.
  assert (Hprefix : repr_bare host hint = bare).
  { unfold repr_bare. destruct Hrepr as [[subscription ->] | ->].
    - change (bare +:+ "[" +:+ subscription)
        with (bare +:+ String "[" subscription).
      rewrite (partition_app "[" bare subscription Hbare). reflexivity.
    - rewrite (partition_not_found bare "[" Hbare). reflexivity. }
  rewrite <- Hprefix.
  apply deprecated_log_grows_iff.
Qed.

Lemma reduce_hint_pep484_deprecated_ignores_subscription_witness :
  (length (reduce_hint_pep484_deprecated py39 More.List_str
             (PyStr EmptyString) [] [] []).2 = 1 <->
   "typing.List" ∈ HINTS_PEP484_REPR_PREFIX_DEPRECATED py39) /\
  (length (reduce_hint_pep484_deprecated py39 World.Any
             (PyStr EmptyString) [] [] []).2 = 1 <->
   "typing.Any" ∈ HINTS_PEP484_REPR_PREFIX_DEPRECATED py39).
Proof.
  split.
  - refine (reduce_hint_pep484_deprecated_ignores_subscription py39
              More.List_str EmptyString "typing.List" [] [] [] eq_refl _).
    left. exists "str]". reflexivity.
  - refine (reduce_hint_pep484_deprecated_ignores_subscription py39
              World.Any EmptyString "typing.Any" [] [] [] eq_refl _).
    right. reflexivity.
Defined.

(* ------------------------------------------------------------------ *)
(** ** The warning hierarchy *)

Lemma issubclass_upto_derives (depth : nat) (c d : Roar.cls) :
  Roar.issubclass_upto depth c d = true -> Roar.derives c d.
Proof.
  revert c. induction depth as [|depth IH]; intros c; simpl.
  - rewrite orb_false_r. intros Heq.
    apply bool_decide_eq_true in Heq. subst d. constructor.
  - intros Hsub. apply orb_true_iff in Hsub as [Heq|Hbase].
    + apply bool_decide_eq_true in Heq. subst d. constructor.
    + apply existsb_exists in Hbase as (b & Hin & Hb).
      apply (Roar.derives_base c b d Hin). apply IH. exact Hb.
Qed.

(** A class is a subclass of whatever its bases are subclasses of. *)
Lemma issubclass_base (c b d : Roar.cls) :
  List.In b (Roar.bases c) ->
  Roar.issubclass b d = true -> Roar.issubclass c d = true.
Proof.
  intros Hin Hb.
  destruct c; simpl in Hin;
    repeat (destruct Hin as [<- | Hin]); try contradiction;
    destruct d; first [reflexivity | discriminate Hb].
Qed.

(** [issubclass] decides [derives]. *)
Lemma issubclass_derives (c d : Roar.cls) :
  Roar.issubclass c d = true <-> Roar.derives c d.
Proof.
  split.
  - apply issubclass_upto_derives.
  - induction 1 as [c | c b d Hin _ IH].
    + unfold Roar.issubclass. simpl.
      rewrite bool_decide_eq_true_2 by reflexivity. reflexivity.
    + exact (issubclass_base c b d Hin IH).
Qed.

(** The categories of the reducers sit in the hierarchy as [warning_base]
    says. *)
Lemma roar_cls_base (c b : warning_class) :
  warning_base c = Some b ->
  List.In (roar_cls b) (Roar.bases (roar_cls c)).
Proof. destruct c; intros [= <-]; simpl; auto. Qed.

(** X19. [BeartypeWarning] is the base of exactly the classes
    [_roarwarn.py] declares: each of them derives from it, and therefore
    from the builtin [UserWarning] and [Warning], and the builtin
    categories do not. *)
Theorem declared_iff_derives_BeartypeWarning (c : Roar.cls) :
  (Roar.declared c = true <-> Roar.derives c Roar.BeartypeWarning) /\
  (Roar.declared c = true ->
   Roar.derives c Roar.UserWarning /\ Roar.derives c Roar.Warning).
Proof.
  split.
  - rewrite <- issubclass_derives. destruct c; split; intros H;
      first [reflexivity | discriminate H].
  - intros Hdeclared. rewrite <- !issubclass_derives.
    destruct c; first [discriminate Hdeclared | split; reflexivity].
Qed.

Lemma declared_iff_derives_BeartypeWarning_witness :
  Roar.derives Roar._BeartypeUtilCallableWarning Roar.UserWarning /\
  Roar.derives Roar._BeartypeUtilCallableWarning Roar.Warning.
Proof.
  exact (proj2 (declared_iff_derives_BeartypeWarning
                  Roar._BeartypeUtilCallableWarning) eq_refl).
Defined.

(** X20. The classes deriving from the builtin [DeprecationWarning] are
    that class and the three deprecation categories of the module, which
    get it through the second base of
    [BeartypeDecorHintPepDeprecationWarning]; no other beartype warning is
    a deprecation warning. *)
Theorem derives_DeprecationWarning (c : Roar.cls) :
  Roar.derives c Roar.DeprecationWarning <->
  c = Roar.DeprecationWarning \/
  c = Roar.BeartypeDecorHintPepDeprecationWarning \/
  c = Roar.BeartypeDecorHintPep585DeprecationWarning \/
  c = Roar.BeartypeDecorHintPep613DeprecationWarning.
Proof.
  rewrite <- issubclass_derives. split.
  - destruct c; intros H; try discriminate H; auto.
  - intros [-> | [-> | [-> | ->]]]; reflexivity.
Qed.

(** X21. The warning [reduce_hint_pep484_deprecated] emits for a
    deprecated hint is of a category deriving both from [BeartypeWarning]
    and from the builtin [DeprecationWarning]. *)
Theorem reduce_hint_pep484_deprecated_category
    (host : Host) (hint : pyobj) (prefix : string)
    (args : list pyobj) (kwargs : list (string * pyobj))
    (log : list warning) :
  repr_bare host hint ∈ HINTS_PEP484_REPR_PREFIX_DEPRECATED host ->
  exists w,
    (reduce_hint_pep484_deprecated host hint (PyStr prefix) args kwargs
       log).2 = log ++ [w] /\
    Roar.derives (roar_cls (warning_cls w)) Roar.BeartypeWarning /\
    Roar.derives (roar_cls (warning_cls w)) Roar.DeprecationWarning.
Proof.
  intros Hin.
  destruct (reduce_hint_pep484_deprecated_emits host hint prefix
              args kwargs log Hin) as [advice ->].
  eexists. split; [reflexivity|]. simpl.
  rewrite <- !issubclass_derives. split; reflexivity.
Qed.

Lemma reduce_hint_pep484_deprecated_category_witness :
  exists w,
    (reduce_hint_pep484_deprecated py39 World.List_int (PyStr EmptyString)
       [] [] []).2 = [] ++ [w] /\
    Roar.derives (roar_cls (warning_cls w)) Roar.BeartypeWarning /\
    Roar.derives (roar_cls (warning_cls w)) Roar.DeprecationWarning.
Proof.
  refine (reduce_hint_pep484_deprecated_category py39 World.List_int
            EmptyString [] [] [] _).
  apply (bool_decide_unpack _). vm_compute. exact I.
Defined.

Lemma instantiate_all_snoc (cs : list Roar.cls) (c : Roar.cls)
    (st : Roar.modules) :
  Roar.instantiate_all (cs ++ [c]) st =
  Roar.instantiate c (Roar.instantiate_all cs st).
Proof. unfold Roar.instantiate_all. rewrite foldl_app. reflexivity. Qed.

(** X22. After any sequence of instantiations a class reports the public
    module [beartype.roar] if and only if it derives from
    [BeartypeWarning] and was itself instantiated; instantiating a class
    changes the module of no other class, neither of its bases nor of its
    subclasses. *)
Theorem instantiate_all_module (cs : list Roar.cls) (c : Roar.cls) :
  Roar.instantiate_all cs Roar.modules_loaded c =
  if bool_decide (c ∈ cs) && Roar.declared c
  then "beartype.roar" else Roar.modules_loaded c.
Proof.
  induction cs as [|c' cs IH] using rev_ind.
  - reflexivity.
  - rewrite instantiate_all_snoc. unfold Roar.instantiate.
    assert (Hsub : Roar.issubclass c' Roar.BeartypeWarning
                   = Roar.declared c') by (destruct c'; reflexivity).
    rewrite Hsub.
    destruct (decide (c = c')) as [<- | Hne].
    + rewrite (bool_decide_eq_true_2 (c ∈ cs ++ [c]))
        by (apply elem_of_app; right; apply list_elem_of_singleton;
            reflexivity).
      simpl. destruct (Roar.declared c) eqn:Hdeclared.
      * rewrite bool_decide_eq_true_2 by reflexivity. reflexivity.
      * rewrite IH, andb_false_r. reflexivity.
    + assert (Hmem : bool_decide (c ∈ cs ++ [c']) = bool_decide (c ∈ cs)).
      { apply bool_decide_ext. rewrite elem_of_app, list_elem_of_singleton.
        tauto. }
      rewrite Hmem.
      destruct (Roar.declared c'); [|exact IH].
      rewrite bool_decide_eq_false_2 by exact Hne. exact IH.
Qed.

(* ------------------------------------------------------------------ *)
(** ** Failures of the sign classifier *)

(** X23. The bare-class test reads the type variables only when the
    class has no type arguments. A class with type arguments is passed on
    to the later branches without [get_hint_pep_typevars] being called,
    so a failure of that getter cannot surface; for a class without type
    arguments a failure of that getter is the failure of the
    classifier. *)
Theorem bare_class_test_short_circuits
    (host : Host) (hint : pyobj) :
  die_unless_hint_pep host hint = Return tt ->
  is_hint_pep_generic host hint = false ->
  is_hint_pep585_builtin host hint = false ->
  isinstance_type hint = true ->
  (truthy (get_hint_pep_args host hint) = true ->
   is_class_unsubscripted host hint = Return false) /\
  (truthy (get_hint_pep_args host hint) = false ->
   forall e,
     get_hint_pep_typevars host hint = Raise e ->
     get_hint_pep_sign host hint = Raise e).
Proof.
  intros Hvalid Hgen H585 Hcls. split.
  - intros Hargs. unfold is_class_unsubscripted.
    rewrite Hcls, Hargs. reflexivity.
  - intros Hargs e Htypevars.
    unfold get_hint_pep_sign, is_class_unsubscripted.
    rewrite Hvalid. run.
    destruct hint; try discriminate. simpl in *.
    rewrite Hgen, H585, Hcls, Hargs, Htypevars. reflexivity.
Qed.

Lemma bare_class_test_short_circuits_witness :
  is_class_unsubscripted py36 More.List36_int = Return false.
Proof.
  exact (proj1 (bare_class_test_short_circuits py36
                  More.List36_int eq_refl eq_refl eq_refl eq_refl) eq_refl).
Defined.

(** X24. Every failure of [get_hint_pep_sign] is accounted for: it is the
    exception of [die_unless_hint_pep], of
    [get_hint_pep585_generic_typevars] or of [import_module], or it is an
    [AttributeError] (a PEP 585 builtin without [__origin__], a Python 3.6
    type alias naming no [typing] attribute) or a
    [BeartypeDecorHintPepSignException]. The classifier raises nothing
    else. *)
Theorem get_hint_pep_sign_failures (host : Host) (hint : pyobj) (e : exn) :
  get_hint_pep_sign host hint = Raise e ->
  die_unless_hint_pep host hint = Raise e \/
  get_hint_pep585_generic_typevars host hint = Raise e \/
  (exists module_name,
     import_module host module_name BeartypeDecorHintPepSignException
       = Raise e) \/
  exn_cls e = AttributeError \/
  exn_cls e = BeartypeDecorHintPepSignException.
Proof.
  unfold get_hint_pep_sign.
  destruct (die_unless_hint_pep host hint) as [[]|e0]; run;
    [|intros [= ->]; auto].
  destruct (is_None hint); [discriminate|].
  destruct (is_hint_pep_generic host hint); [discriminate|].
  destruct (is_hint_pep585_builtin host hint).
  { unfold getattr_strict. destruct (py_attr hint "__origin__");
      [discriminate|]. intros [= <-]. auto. }
  destruct (is_class_unsubscripted host hint) as [standard|e0] eqn:Hstd;
    simpl.
  2: { intros [= ->]. right. left.
       unfold is_class_unsubscripted in Hstd.
       destruct (isinstance_type hint); [|discriminate].
       destruct (truthy (get_hint_pep_args host hint)); [discriminate|].
       pose proof (proj2 (typevars_failure_is_extractor_failure
                            host hint) e) as Hextractor.
       destruct (get_hint_pep_typevars host hint) as [tvs|e1]; run;
         [discriminate|].
       injection Hstd as ->. apply Hextractor. reflexivity. }
  destruct standard.
  { destruct (py_in hint (HINT_PEP_SIGNS_TYPE host)); simpl;
      [discriminate|]. intros [= <-]. auto. }
  destruct (is_hint_forwardref host hint); [discriminate|].
  destruct (is_hint_pep484_newtype host hint); [discriminate|].
  destruct (is_hint_pep_typevar host hint); [discriminate|].
  destruct (IS_PYTHON_3_6 host && isinstance_TypeAlias hint) eqn:Halias.
  { apply andb_true_iff in Halias as [_ Halias].
    destruct hint; try discriminate. simpl. unfold getattr_strict.
    destruct (py_attr (typing host) s); [discriminate|].
    intros [= <-]. auto. }
  rewrite get_hint_pep_sign_from_repr_names.
  case_bool_decide; [intros [= <-]; auto|].
  destruct (import_module host (repr_module_name hint)
              BeartypeDecorHintPepSignException) as [hint_module|e0]
    eqn:Himport; run.
  - destruct (is_None _); [|discriminate]. intros [= <-]. auto.
  - intros [= ->]. right. right. left. eauto.
Qed.

Lemma get_hint_pep_sign_failures_witness :
  die_unless_hint_pep py39 More.Missing = Raise
    (mk_exn BeartypeDecorHintPepSignException
       ("Type hint typing.Missing[int] attribute " +:+ dquote +:+
        "typing.Missing" +:+ dquote +:+ " not found.")) \/
  get_hint_pep585_generic_typevars py39 More.Missing = Raise
    (mk_exn BeartypeDecorHintPepSignException
       ("Type hint typing.Missing[int] attribute " +:+ dquote +:+
        "typing.Missing" +:+ dquote +:+ " not found.")) \/
  (exists module_name,
     import_module py39 module_name BeartypeDecorHintPepSignException = Raise
       (mk_exn BeartypeDecorHintPepSignException
          ("Type hint typing.Missing[int] attribute " +:+ dquote +:+
           "typing.Missing" +:+ dquote +:+ " not found."))) \/
  BeartypeDecorHintPepSignException = AttributeError \/
  BeartypeDecorHintPepSignException = BeartypeDecorHintPepSignException.
Proof.
  exact (get_hint_pep_sign_failures py39 More.Missing _ eq_refl).
Defined.
